(** * descqa: the MB2 galaxy-catalog reader and the colour-distribution test

    A shallow embedding of [reader/MB2GalaxyCatalog.py] and of
    [validation_code/ColorDistributionTest.py].

    - numpy [float64] values are Rocq's primitive binary64 floats, with the
      IEEE comparisons ([nan] compares false with everything);
    - 1-D numpy arrays are lists, with numpy's length checks and its
      broadcasting of length-one operands written out;
    - Python dictionaries received from a caller are [gmap]s;
    - a Python exception is the [Raise] case of [result];
    - the files a run appends to are fields of the run state.

    Collaborators that live outside the two source files are parameters:
    astropy's distance modulus is a variable of the reader's section, and
    [CalcStats], [ComputeColorDistribution] and the file reader are the
    fields of a record the test is given. matplotlib calls only draw: they
    are left out, and so are [warn], which prints, and [uniform_filter1d],
    whose output goes nowhere but into a plot. *)

From Stdlib Require Import Floats ZArith Uint63.
From Stdlib Require Import Ascii String.
From stdpp Require Import gmap strings list fin_maps.

Set Warnings "-inexact-float".
Set Default Proof Using "Type".

(** ** Exceptions *)

Inductive exn := KeyError | IndexError | ValueError | TypeError | NameError.

Inductive result (A : Type) : Type :=
| Ok (a : A)
| Raise (e : exn).
Arguments Ok {A} a.
Arguments Raise {A} e.

#[export] Instance result_ret : MRet result := fun _ a => Ok a.
#[export] Instance result_bind : MBind result := fun _ _ f m =>
  match m with
  | Ok a => f a
  | Raise e => Raise e
  end.

Definition of_option {A} (e : exn) (o : option A) : result A :=
  match o with
  | Some a => Ok a
  | None => Raise e
  end.

(** ** The numpy operations the two files use *)

Module np.

(** [a[i]] on a list or 1-D array. *)
Definition getitem {A} (a : list A) (i : nat) : result A :=
  of_option IndexError (a !! i).

(** An elementwise binary operation on two 1-D arrays: equal lengths pair
    up, a length-one operand is stretched, anything else is a
    [ValueError]. *)
Definition broadcast2 {A B C} (f : A → B → C) (a : list A) (b : list B)
  : result (list C) :=
  if decide (length a = length b) then Ok (zip_with f a b)
  else match a, b with
       | [x], _ => Ok (map (f x) b)
       | _, [y] => Ok (map (fun x => f x y) a)
       | _, _ => Raise ValueError
       end.

Definition ones (n : nat) : list bool := replicate n true.

Definition isfinite (a : list float) : list bool := map PrimFloat.is_finite a.

(** [np.where(mask)]: the positions holding [True], in increasing order. *)
Fixpoint where_from (i : nat) (mask : list bool) : list nat :=
  match mask with
  | [] => []
  | b :: m => if b then i :: where_from (S i) m else where_from (S i) m
  end.

Definition where_ (mask : list bool) : list nat := where_from 0 mask.

(** [a[idx]] for an array of positions. *)
Fixpoint take {A} (a : list A) (idx : list nat) : result (list A) :=
  match idx with
  | [] => Ok []
  | i :: idx' =>
      x ← getitem a i;
      xs ← take a idx';
      Ok (x :: xs)
  end.

(** The elements of [a] standing where [mask] holds [True]. *)
Fixpoint select {A} (mask : list bool) (a : list A) : list A :=
  match mask, a with
  | b :: mask', x :: a' => if b then x :: select mask' a' else select mask' a'
  | _, _ => []
  end.

(** [a[mask]] for a boolean array, which must be as long as [a]. *)
Definition compress {A} (a : list A) (mask : list bool) : result (list A) :=
  if decide (length mask = length a) then Ok (select mask a)
  else Raise IndexError.

(** [np.sum] of a boolean array. *)
Definition count_true (mask : list bool) : nat :=
  length (List.filter id mask).

(** [np.argmax] of a boolean array: the first [True], 0 when there is
    none, a [ValueError] on an empty array. *)
Fixpoint first_true (mask : list bool) : option nat :=
  match mask with
  | [] => None
  | b :: m => if b then Some 0 else S <$> first_true m
  end.

Definition argmax (mask : list bool) : result nat :=
  match mask with
  | [] => Raise ValueError
  | _ => Ok (default 0 (first_true mask))
  end.

Definition of_nat (n : nat) : float :=
  PrimFloat.of_uint63 (Uint63.of_Z (Z.of_nat n)).

(** [np.sqrt(n)] for a Python integer. *)
Definition sqrt_nat (n : nat) : float := PrimFloat.sqrt (of_nat n).

(** [np.linspace(start, stop, num)], endpoint included: the step is
    [(stop - start) / (num - 1)], sample [i] is [i * step + start], and the
    last sample is set to [stop]. *)
Definition linspace (start stop : float) (num : nat) : list float :=
  match num with
  | 0 => []
  | 1 => [start]
  | S (S k as div) =>
      let step := ((stop - start) / of_nat div)%float in
      map (fun i => (of_nat i * step + start)%float) (seq 0 div) ++ [stop]
  end.

(** [a.searchsorted(v, side)] read on the unsorted data: the number of
    elements below [v], strictly for ['left']. *)
Definition count_lt (a : list float) (v : float) : nat :=
  length (List.filter (fun x => PrimFloat.ltb x v) a).

Definition count_le (a : list float) (v : float) : nat :=
  length (List.filter (fun x => PrimFloat.leb x v) a).

(** The cumulative counts [np.histogram] takes at the bin edges: ['left']
    at every edge but the last, ['right'] at the last, which closes the
    last bin. *)
Fixpoint cum_counts (a : list float) (edges : list float) : list nat :=
  match edges with
  | [] => []
  | e :: es =>
      match es with
      | [] => [count_le a e]
      | _ => count_lt a e :: cum_counts a es
      end
  end.

(** [np.diff] on the counts. *)
Fixpoint diff (c : list nat) : list Z :=
  match c with
  | [] => []
  | x :: c' =>
      match c' with
      | [] => []
      | y :: _ => (Z.of_nat y - Z.of_nat x)%Z :: diff c'
      end
  end.

(** [np.histogram(a, bins=edges)]: the counts, and the edges again. *)
Definition histogram (a : list float) (edges : list float)
  : list Z * list float :=
  (diff (cum_counts a edges), edges).

(** [np.sum] of an integer array. *)
Definition sumZ (l : list Z) : Z := foldr Z.add 0%Z l.

Definition of_Z (z : Z) : float :=
  match z with
  | Z.neg p => (- PrimFloat.of_uint63 (Uint63.of_Z (Z.pos p)))%float
  | _ => PrimFloat.of_uint63 (Uint63.of_Z z)
  end.

(** [hist / total] on an integer array: true division in binary64. *)
Definition true_divide (l : list Z) (d : Z) : list float :=
  map (fun c => (of_Z c / of_Z d)%float) l.

(** [np.sum] of a float array, left to right. *)
Definition sum (l : list float) : float :=
  foldl (fun acc v => (acc + v)%float) 0%float l.

(** [np.min] and [np.max] of a two-element list. *)
Definition min2 (a b : float) : float := if PrimFloat.ltb b a then b else a.
Definition max2 (a b : float) : float := if PrimFloat.ltb a b then b else a.

End np.

(** ** reader/MB2GalaxyCatalog.py *)

Module MB2GalaxyCatalog.

(** One row of the table [Table.read(fn, path='data')] returns. The columns
    are the ones the class reads by name. *)
Record Row := {
  halo_id : float;
  parent_halo_id : float;
  redshift : float;
  x : float;
  y : float;
  z : float;
  velocityX : float;
  velocityY : float;
  velocityZ : float;
  mass : float;
  stellar_mass : float;
  gas_mass : float;
  sfr : float;
  SDSS_u_rest : float;
  SDSS_g_rest : float;
  SDSS_r_rest : float;
  SDSS_i_rest : float;
  SDSS_z_rest : float;
}.

Definition Table := list Row.

Definition columns : list (string * (Row → float)) :=
  [ ("halo_id", halo_id); ("parent_halo_id", parent_halo_id);
    ("redshift", redshift); ("x", x); ("y", y); ("z", z);
    ("velocityX", velocityX); ("velocityY", velocityY);
    ("velocityZ", velocityZ); ("mass", mass);
    ("stellar_mass", stellar_mass); ("gas_mass", gas_mass); ("sfr", sfr);
    ("SDSS_u:rest:", SDSS_u_rest); ("SDSS_g:rest:", SDSS_g_rest);
    ("SDSS_r:rest:", SDSS_r_rest); ("SDSS_i:rest:", SDSS_i_rest);
    ("SDSS_z:rest:", SDSS_z_rest) ].

Definition field (name : string) : option (Row → float) :=
  (list_to_map columns : gmap string (Row → float)) !! name.

Arguments field : simpl never.

(** [table[name]]: a column, or a [KeyError]. *)
Definition column (t : Table) (name : string) : result (list float) :=
  f ← of_option KeyError (field name);
  Ok (map f t).

(** [astropy.cosmology.FlatLambdaCDM(H0, Om0)]. *)
Record FlatLambdaCDM := { H0 : float; Om0 : float }.

Inductive handler := get_stored | get_derived.

Inductive combinator := multiply | add_distance_modulus.

Record MB2 := {
  h : float;
  cosmology : FlatLambdaCDM;
  quantities : gmap string handler;
  derived : gmap string (list string * list float * combinator);
  Ngals : nat;
  catalog : Table;
}.

(** [__init__], the fields that the methods below read. *)
Definition init : MB2 :=
  let h := 0.702%float in
  {| h := h;
     cosmology := {| H0 := (h * 100.0)%float; Om0 := 0.275%float |};
     quantities := list_to_map
       [ ("halo_id", get_stored); ("parent_halo_id", get_stored);
         ("redshift", get_stored);
         ("positionX", get_derived); ("positionY", get_derived);
         ("positionZ", get_derived);
         ("velocityX", get_stored); ("velocityY", get_stored);
         ("velocityZ", get_stored);
         ("mass", get_derived); ("stellar_mass", get_derived);
         ("gas_mass", get_stored); ("sfr", get_stored);
         ("SDSS_u:observed:", get_derived); ("SDSS_g:observed:", get_derived);
         ("SDSS_r:observed:", get_derived); ("SDSS_i:observed:", get_derived);
         ("SDSS_z:observed:", get_derived) ];
     derived := list_to_map
       [ ("mass", (["mass"], [(1e10 / h)%float], multiply));
         ("stellar_mass", (["stellar_mass"], [(1e10 / h)%float], multiply));
         ("positionX", (["x"], [(1e-3 / h)%float], multiply));
         ("positionY", (["y"], [(1e-3 / h)%float], multiply));
         ("positionZ", (["z"], [(1e-3 / h)%float], multiply));
         ("SDSS_u:observed:",
           (["SDSS_u:rest:"; "redshift"], [], add_distance_modulus));
         ("SDSS_g:observed:",
           (["SDSS_g:rest:"; "redshift"], [], add_distance_modulus));
         ("SDSS_r:observed:",
           (["SDSS_r:rest:"; "redshift"], [], add_distance_modulus));
         ("SDSS_i:observed:",
           (["SDSS_i:rest:"; "redshift"], [], add_distance_modulus));
         ("SDSS_z:observed:",
           (["SDSS_z:rest:"; "redshift"], [], add_distance_modulus)) ];
     Ngals := 0;
     catalog := [] |}.

Arguments init : simpl never.

(** [load]: the table read from the file is the argument. *)
Definition load (self : MB2) (t : Table) : MB2 :=
  {| h := h self; cosmology := cosmology self;
     quantities := quantities self; derived := derived self;
     Ngals := length t; catalog := t |}.

Section Reader.

(** [cosmology.distmod(z).value], astropy's distance modulus. *)
Variable distmod : FlatLambdaCDM → float → float.

Definition mask_and (mask : list bool) (b : list bool) : result (list bool) :=
  np.broadcast2 andb mask b.

(** One turn of the loop over [filters.keys()]. *)
Definition filter_step (self : MB2) (filters : gmap string float)
    (filter_name : string) (mask : result (list bool)) : result (list bool) :=
  mask ← mask;
  if decide (filter_name = "zlo") then
    v ← of_option KeyError (filters !! filter_name);
    red ← column (catalog self) "redshift";
    mask_and mask (map (fun r => PrimFloat.ltb v r) red)
  else if decide (filter_name = "zhi") then
    v ← of_option KeyError (filters !! filter_name);
    red ← column (catalog self) "redshift";
    mask_and mask (map (fun r => PrimFloat.ltb r v) red)
  else Ok mask.

(** The argument is a dictionary by its type, so the [TypeError] of the
    first lines cannot arise. *)
Definition _construct_mask (self : MB2) (filters : gmap string float)
  : result (list bool) :=
  let mask := np.ones (Ngals self) in
  cx ← column (catalog self) "x";
  mask ← mask_and mask (np.isfinite cx);
  cy ← column (catalog self) "y";
  mask ← mask_and mask (np.isfinite cy);
  cz ← column (catalog self) "z";
  mask ← mask_and mask (np.isfinite cz);
  map_fold (fun filter_name _ acc => filter_step self filters filter_name acc)
           (Ok mask) filters.

Definition _get_stored_property (self : MB2) (quantity : string)
    (filters : gmap string float) : result (list float) :=
  filter_mask ← _construct_mask self filters;
  col ← column (catalog self) quantity;
  np.take col (np.where_ filter_mask).

Definition _multiply (array_tuple : list (list float))
    (scalar_tuple : list float) : result (list float) :=
  a ← np.getitem array_tuple 0;
  s ← np.getitem scalar_tuple 0;
  Ok (map (fun v => (v * s)%float) a).

Definition _add_distance_modulus (self : MB2)
    (array_tuple : list (list float)) (scalar_tuple : list float)
  : result (list float) :=
  a ← np.getitem array_tuple 0;
  zs ← np.getitem array_tuple 1;
  np.broadcast2 (fun m d => (m + d)%float) a
                (map (distmod (cosmology self)) zs).

Definition apply_combinator (self : MB2) (func : combinator) :=
  match func with
  | multiply => _multiply
  | add_distance_modulus => _add_distance_modulus self
  end.

(** The list comprehension over [arrays_required]. *)
Fixpoint gather (self : MB2) (filter_mask : list bool) (names : list string)
  : result (list (list float)) :=
  match names with
  | [] => Ok []
  | name :: names' =>
      col ← column (catalog self) name;
      a ← np.take col (np.where_ filter_mask);
      rest ← gather self filter_mask names';
      Ok (a :: rest)
  end.

Definition _get_derived_property (self : MB2) (quantity : string)
    (filters : gmap string float) : result (list float) :=
  filter_mask ← _construct_mask self filters;
  '(arrays_required, scalars, func) ←
    of_option KeyError (derived self !! quantity);
  arrays ← gather self filter_mask arrays_required;
  apply_combinator self func arrays scalars.

(** Modelled from the spec: [get_quantities] is inherited from
    [GalaxyCatalog] (module [GalaxyCatalogInterface], not among the
    sources). It looks the name up in the quantity table, an unknown name
    being a lookup failure, and calls the handler found there. *)
Definition get_quantities (self : MB2) (name : string)
    (filters : gmap string float) : result (list float) :=
  match quantities self !! name with
  | None => Raise KeyError
  | Some get_stored => _get_stored_property self name filters
  | Some get_derived => _get_derived_property self name filters
  end.

End Reader.

(** *** What the specification says of the reader *)

Definition finite_position (r : Row) : bool :=
  PrimFloat.is_finite (x r) && PrimFloat.is_finite (y r)
  && PrimFloat.is_finite (z r).

Definition above_zlo (filters : gmap string float) (r : Row) : bool :=
  match filters !! "zlo" with
  | Some zlo => PrimFloat.ltb zlo (redshift r)
  | None => true
  end.

Definition below_zhi (filters : gmap string float) (r : Row) : bool :=
  match filters !! "zhi" with
  | Some zhi => PrimFloat.ltb (redshift r) zhi
  | None => true
  end.

(** The rows the specification says are returned: finite coordinates,
    [zlo < redshift] when "zlo" is a key, [redshift < zhi] when "zhi" is. *)
Definition passes (filters : gmap string float) (r : Row) : bool :=
  finite_position r && above_zlo filters r && below_zhi filters r.

(** The value the specification gives each quantity on one row: a stored
    column as it is, masses and positions scaled, observed magnitudes
    shifted by the distance modulus at the row's redshift. *)
Definition row_value (distmod : FlatLambdaCDM → float → float)
    (name : string) : option (Row → float) :=
  let h := 0.702%float in
  let cosmo := {| H0 := (h * 100.0)%float; Om0 := 0.275%float |} in
  let scaled (f : Row → float) (c : float) := Some (fun r => (f r * c)%float) in
  let observed (f : Row → float) :=
    Some (fun r => (f r + distmod cosmo (redshift r))%float) in
  if decide (name = "mass") then scaled mass (1e10 / h)%float
  else if decide (name = "stellar_mass") then scaled stellar_mass (1e10 / h)%float
  else if decide (name = "positionX") then scaled x (1e-3 / h)%float
  else if decide (name = "positionY") then scaled y (1e-3 / h)%float
  else if decide (name = "positionZ") then scaled z (1e-3 / h)%float
  else if decide (name = "SDSS_u:observed:") then observed SDSS_u_rest
  else if decide (name = "SDSS_g:observed:") then observed SDSS_g_rest
  else if decide (name = "SDSS_r:observed:") then observed SDSS_r_rest
  else if decide (name = "SDSS_i:observed:") then observed SDSS_i_rest
  else if decide (name = "SDSS_z:observed:") then observed SDSS_z_rest
  else if decide (name ∈ ["halo_id"; "parent_halo_id"; "redshift";
                          "velocityX"; "velocityY"; "velocityZ";
                          "gas_mass"; "sfr"]) then field name
  else None.

(** *** Sample data *)

(** A row with the given redshift, x coordinate and rest-frame g and r
    magnitudes, and zero elsewhere. *)
Definition sample_row (zred px g r : float) : Row :=
  {| halo_id := 0; parent_halo_id := 0; redshift := zred;
     x := px; y := 0; z := 0;
     velocityX := 0; velocityY := 0; velocityZ := 0;
     mass := 0; stellar_mass := 0; gas_mass := 0; sfr := 0;
     SDSS_u_rest := 0; SDSS_g_rest := g; SDSS_r_rest := r;
     SDSS_i_rest := 0; SDSS_z_rest := 0 |}.

(** Four rows: one inside the window 0.5 to 1.0, one below it, one above
    it, and one inside it whose x coordinate is not a number. *)
Definition sample_table : Table :=
  [ sample_row 0.7 1.0 (-20.0) (-20.5);
    sample_row 0.2 2.0 (-19.0) (-19.5);
    sample_row 1.4 3.0 (-21.0) (-21.5);
    sample_row 0.8 nan (-20.0) (-20.5) ]%float.

(** The rest-frame column behind each observed SDSS magnitude. *)
Definition sdss_bands : list (string * (Row → float)) :=
  [ ("SDSS_u:observed:", SDSS_u_rest); ("SDSS_g:observed:", SDSS_g_rest);
    ("SDSS_r:observed:", SDSS_r_rest); ("SDSS_i:observed:", SDSS_i_rest);
    ("SDSS_z:observed:", SDSS_z_rest) ].

End MB2GalaxyCatalog.

(** ** validation_code/ColorDistributionTest.py *)

Module ColorDistributionTest.

(** The line feed that ends each message. *)
Definition nl : string := String "010"%char EmptyString.

(** [TestResult(status, summary)], from [ValidationTest]. *)
Record TestResult := { status : string; summary : string }.

(** A catalogue reader as the test uses one: the keys of its quantity
    table and its [get_quantities]. *)
Record GalaxyCatalog := {
  quantities : gset string;
  get_quantities : string → gmap string float → result (list float);
}.

(** The MB2 reader seen through that interface. *)
Definition of_MB2 (distmod : MB2GalaxyCatalog.FlatLambdaCDM → float → float)
    (c : MB2GalaxyCatalog.MB2) : GalaxyCatalog :=
  {| quantities := dom (MB2GalaxyCatalog.quantities c);
     get_quantities := MB2GalaxyCatalog.get_quantities distmod c |}.

(** The attributes [__init__] sets. It raises [ValueError] unless every
    colour has three characters with a dash in the middle. *)
Record Test := {
  colors : list string;
  limiting_band : option string;
  limiting_mag : option float;
  zlo : float;
  zhi : float;
  translate : gmap string string;
  load_validation_catalog_q : bool;
  _data_name : string;
}.

Definition well_formed_color (color : string) : bool :=
  bool_decide (String.length color = 3 ∧ String.get 1 color = Some "-"%char).

(** A [{'x': ..., 'y': ...}] dictionary handed to [CalcStats], by its items. *)
Definition dict := list (string * list float).

(** A [(binctr, hist)] pair. *)
Definition distribution : Type := list float * list float.

(** The collaborators of other modules: [CalcStats] ([L2Diff], [L1Diff],
    [KS_test], each returning a value and a success flag),
    [ComputeColorDistribution] ([load_DEEP2], [load_SDSS]) and the reader
    of the per-colour file ([load_validation_data], here by data name,
    colour and redshift window, which name the file). *)
Record External := {
  L2Diff : dict → dict → float * bool;
  L1Diff : dict → dict → float * bool;
  KS_test : dict → dict → float * bool;
  load_DEEP2 : list string → float → float → list distribution;
  load_SDSS : list string → float → float → list distribution;
  load_validation_data : string → string → float → float → result distribution;
}.

(** One line appended to [summary.txt]: the redshift window, or a colour
    with SUCCESS or FAILED, the name of a statistic and the number printed
    after it. *)
Inductive summary_line :=
| Window (lo hi : float)
| Stat (color : string) (success : bool) (name : string) (value : float).

(** The output directory: the two append-only text files, whether the two
    plots were saved, and the two quantile tables once written. *)
Record Files := {
  summary_txt : list summary_line;
  log_txt : list string;
  plots_saved : bool;
  catalog_quantiles_txt : option (list (list float));
  validation_quantiles_txt : option (list (list float));
}.

Definition empty_dir : Files :=
  {| summary_txt := []; log_txt := []; plots_saved := false;
     catalog_quantiles_txt := None; validation_quantiles_txt := None |}.

Definition write_summary (fs : Files) (lines : list summary_line) : Files :=
  {| summary_txt := summary_txt fs ++ lines; log_txt := log_txt fs;
     plots_saved := plots_saved fs;
     catalog_quantiles_txt := catalog_quantiles_txt fs;
     validation_quantiles_txt := validation_quantiles_txt fs |}.

Definition write_log (fs : Files) (msg : string) : Files :=
  {| summary_txt := summary_txt fs; log_txt := log_txt fs ++ [msg];
     plots_saved := plots_saved fs;
     catalog_quantiles_txt := catalog_quantiles_txt fs;
     validation_quantiles_txt := validation_quantiles_txt fs |}.

Definition save_plots (fs : Files) : Files :=
  {| summary_txt := summary_txt fs; log_txt := log_txt fs;
     plots_saved := true;
     catalog_quantiles_txt := catalog_quantiles_txt fs;
     validation_quantiles_txt := validation_quantiles_txt fs |}.

Definition save_quantiles (fs : Files) (cq vq : list (list float)) : Files :=
  {| summary_txt := summary_txt fs; log_txt := log_txt fs;
     plots_saved := plots_saved fs;
     catalog_quantiles_txt := Some cq;
     validation_quantiles_txt := Some vq |}.

(** The local variables of [run_validation_test] that outlive one turn of
    the loop, with the output directory. *)
Record RunState := {
  files : Files;
  catalog_quantiles : list (list float);
  validation_quantiles : list (list float);
  no_cdf_q : bool;
}.

Definition log_warning (s : RunState) (msg : string) : RunState :=
  {| files := write_log (files s) msg;
     catalog_quantiles := catalog_quantiles s;
     validation_quantiles := validation_quantiles s;
     no_cdf_q := no_cdf_q s |}.

(** How one turn of the loop ends: at its end or at a [continue], or at a
    [return]. *)
Inductive turn :=
| Next (s : RunState)
| Return (r : TestResult) (s : RunState).

(** The prefix-sum loop: [cdf[0] = hist[0]], then
    [cdf[i] = cdf[i-1] + hist[i]]. *)
Fixpoint running (prev : float) (hist : list float) : list float :=
  match hist with
  | [] => []
  | v :: hist' => let s := (prev + v)%float in s :: running s hist'
  end.

Definition prefix_sum (hist : list float) : result (list float) :=
  match hist with
  | [] => Raise IndexError
  | v :: hist' => Ok (v :: running v hist')
  end.

(** [binctr[np.argmax(cdf > q)]]. *)
Definition first_crossing (binctr cdf : list float) (q : float) : result float :=
  i ← np.argmax (map (fun c => PrimFloat.ltb q c) cdf);
  np.getitem binctr i.

(** The character [color[i]] as a string. *)
Definition char_at (color : string) (i : nat) : result string :=
  c ← of_option IndexError (String.get i color);
  Ok (String c EmptyString).

Definition missing_band_msg (band1 band2 : string) : string :=
  "galaxy catalog does not have `" ++ band1 ++ "` and/or `" ++ band2
  ++ "` quantity, skipping the rest of the validation test." ++ nl.

Definition no_redshift_msg : string := "No object in the redshift range!" ++ nl.

Definition no_magnitude_msg : string := "No object in the magnitude range!" ++ nl.

Section Run.

Variable ext : External.
Variable self : Test.
Variable galaxy_catalog : GalaxyCatalog.

Definition window : gmap string float :=
  {[ "zlo" := zlo self; "zhi" := zhi self ]}.

(** The histogram step: count, normalise by the total count, centre the
    bins. *)
Definition histogram_step (diffs : list float) (bin_args : float * float * nat)
  : distribution :=
  let '(start, stop, num) := bin_args in
  let '(hist, bins) := np.histogram diffs (np.linspace start stop num) in
  let hist := np.true_divide hist (np.sumZ hist) in
  let binctr := zip_with (fun a b => ((a + b) / 2)%float)
                         (tail bins) (removelast bins) in
  (binctr, hist).

(** [color_distribution]. [self.band1] and [self.band2], set by the caller
    just before, are arguments; [None, None] is [None]. *)
Definition color_distribution (band1 band2 : string)
    (bin_args : float * float * nat) (fs : Files)
  : result (Files * option distribution) :=
  mag1 ← get_quantities galaxy_catalog band1 window;
  mag2 ← get_quantities galaxy_catalog band2 window;
  if decide (length mag1 = 0) then Ok (write_log fs no_redshift_msg, None)
  else
    mask ←
      match limiting_band self with
      | Some lb =>
          limiting_band_name ← of_option KeyError (translate self !! lb);
          mag_lim ← get_quantities galaxy_catalog limiting_band_name window;
          lim ← of_option TypeError (limiting_mag self);
          m ← np.broadcast2 andb (map (fun v => PrimFloat.ltb v lim) mag_lim)
                                 (map (fun v => PrimFloat.ltb 0 v) mag1);
          m ← np.broadcast2 andb m (map (fun v => PrimFloat.ltb v 50) mag1);
          m ← np.broadcast2 andb m (map (fun v => PrimFloat.ltb 0 v) mag2);
          np.broadcast2 andb m (map (fun v => PrimFloat.ltb v 50) mag2)
      | None =>
          m ← np.broadcast2 andb (map (fun v => PrimFloat.ltb 0 v) mag1)
                                 (map (fun v => PrimFloat.ltb v 50) mag1);
          m ← np.broadcast2 andb m (map (fun v => PrimFloat.ltb 0 v) mag2);
          np.broadcast2 andb m (map (fun v => PrimFloat.ltb v 50) mag2)
      end;
    mag1 ← np.compress mag1 mask;
    mag2 ← np.compress mag2 mask;
    if decide (np.count_true mask = 0)
    then Ok (write_log fs no_magnitude_msg, None)
    else
      diffs ← np.broadcast2 (fun a b => (a - b)%float) mag1 mag2;
      Ok (fs, Some (histogram_step diffs bin_args)).

(** [vsummary], bound only when the full validation catalogue is loaded
    and the data name is one of the two known ones. *)
Definition vsummary : option (list distribution) :=
  if load_validation_catalog_q self then
    if decide (_data_name self = "DEEP2")
    then Some (load_DEEP2 ext (colors self) (zlo self) (zhi self))
    else if decide (_data_name self = "SDSS")
    then Some (load_SDSS ext (colors self) (zlo self) (zhi self))
    else None
  else None.

(** The reference histogram of a colour, from [vsummary] or from its
    file. *)
Definition reference (index : nat) (color : string) : result distribution :=
  if load_validation_catalog_q self then
    v ← of_option NameError vsummary;
    np.getitem v index
  else load_validation_data ext (_data_name self) color (zlo self) (zhi self).

(** The three statistics and the lines they leave in [summary.txt]. Each
    of [d1] and [d2] is a dictionary with the two keys 'x' and 'y'. *)
Definition statistics (color : string) (mbinctr mcdf obinctr ocdf : list float)
  : list summary_line :=
  let d1 : dict := [("x", mbinctr); ("y", mcdf)] in
  let d2 : dict := [("x", obinctr); ("y", ocdf)] in
  let L2 := fst (L2Diff ext d1 d2) in
  let L2_success := snd (L2Diff ext d1 d2) in
  let L2 := (L2 * np.sqrt_nat (length d1))%float in
  let L1 := fst (L1Diff ext d1 d2) in
  let L1_success := snd (L1Diff ext d1 d2) in
  let L1 := (L1 * np.sqrt_nat (length d1))%float in
  let KS := fst (KS_test ext d1 d2) in
  let KS_success := snd (KS_test ext d1 d2) in
  [ Stat color L2_success "L2Diff" L2;
    Stat color L1_success "L1Diff" (if L1_success then L1 else L2);
    Stat color KS_success "K-S" KS ].

(** What follows a histogram from the catalogue in one turn of the loop:
    the CDF, the plot range, the statistics, the quantiles, the summary
    lines. *)
Definition compare (index : nat) (color : string)
    (obinctr ocdf mbinctr mhist : list float) (s : RunState) : result RunState :=
  mcdf ← prefix_sum mhist;
  lo_m ← first_crossing mbinctr mcdf 0.005;
  lo_o ← first_crossing obinctr ocdf 0.005;
  hi_m ← first_crossing mbinctr mcdf 0.995;
  hi_o ← first_crossing obinctr ocdf 0.995;
  let xlim := np.min2 lo_m lo_o in
  let xmax := np.max2 hi_m hi_o in
  let lines := statistics color mbinctr mcdf obinctr ocdf in
  m95min ← first_crossing mbinctr mcdf 0.025;
  m95max ← first_crossing mbinctr mcdf 0.975;
  o95min ← first_crossing obinctr ocdf 0.025;
  o95max ← first_crossing obinctr ocdf 0.975;
  m68min ← first_crossing mbinctr mcdf 0.16;
  m68max ← first_crossing mbinctr mcdf 0.84;
  o68min ← first_crossing obinctr ocdf 0.16;
  o68max ← first_crossing obinctr ocdf 0.84;
  mmedian ← first_crossing mbinctr mcdf 0.5;
  omedian ← first_crossing obinctr ocdf 0.5;
  Ok {| files := write_summary (files s) lines;
        catalog_quantiles :=
          <[index := [m95min; m68min; mmedian; m68max; m95max]]>
            (catalog_quantiles s);
        validation_quantiles :=
          <[index := [o95min; o68min; omedian; o68max; o95max]]>
            (validation_quantiles s);
        no_cdf_q := false |}.

(** One turn of the loop over the colours. *)
Definition process_color (index : nat) (s : RunState) : result turn :=
  color ← np.getitem (colors self) index;
  c0 ← char_at color 0;
  band1 ← of_option KeyError (translate self !! c0);
  c2 ← char_at color 2;
  band2 ← of_option KeyError (translate self !! c2);
  '(obinctr, ohist) ← reference index color;
  ocdf ← prefix_sum ohist;
  if decide (band1 ∈ quantities galaxy_catalog ∧ band2 ∈ quantities galaxy_catalog)
  then
    '(fs, found) ← color_distribution band1 band2 ((-1)%float, 4%float, 2000) (files s);
    let s := {| files := fs; catalog_quantiles := catalog_quantiles s;
                validation_quantiles := validation_quantiles s;
                no_cdf_q := no_cdf_q s |} in
    match found with
    | None => Ok (Return {| status := "SKIPPED"; summary := "" |} s)
    | Some (mbinctr, mhist) =>
        s ← compare index color obinctr ocdf mbinctr mhist s;
        Ok (Next s)
    end
  else Ok (Next (log_warning s (missing_band_msg band1 band2))).

(** The loop, over the indices [range(len(self.colors))]. *)
Fixpoint color_loop (indices : list nat) (s : RunState) : result turn :=
  match indices with
  | [] => Ok (Next s)
  | index :: indices' =>
      t ← process_color index s;
      match t with
      | Next s' => color_loop indices' s'
      | Return r s' => Ok (Return r s')
      end
  end.

(** The state at the first turn of the loop: the redshift window is
    written to the summary, the two quantile tables hold zeros and no CDF
    has been made. *)
Definition initial_state (dir : Files) : RunState :=
  let n := length (colors self) in
  {| files := write_summary dir [Window (zlo self) (zhi self)];
     catalog_quantiles := replicate n (replicate 5 0%float);
     validation_quantiles := replicate n (replicate 5 0%float);
     no_cdf_q := true |}.

(** [run_validation_test], from an output directory to the result and the
    directory after the run. *)
Definition run_validation_test (dir : Files) : result (TestResult * Files) :=
  t ← color_loop (seq 0 (length (colors self))) (initial_state dir);
  match t with
  | Return r s => Ok (r, files s)
  | Next s =>
      let dir := if no_cdf_q s then files s else save_plots (files s) in
      let dir := save_quantiles dir (catalog_quantiles s)
                                (validation_quantiles s) in
      Ok ({| status := if no_cdf_q s then "SKIPPED" else "PASSED";
             summary := "" |}, dir)
  end.

End Run.

(** *** What the specification says of the test *)

(** A colour produces a valid CDF comparison when its turn, started with
    [no_cdf_q] set, ends with [no_cdf_q] cleared: the turn has reached the
    comparison of the two CDFs. *)
Definition produces_comparison (ext : External) (self : Test)
    (galaxy_catalog : GalaxyCatalog) (index : nat) (s : RunState) : bool :=
  let s := {| files := files s; catalog_quantiles := catalog_quantiles s;
              validation_quantiles := validation_quantiles s;
              no_cdf_q := true |} in
  match process_color ext self galaxy_catalog index s with
  | Ok (Next s') => negb (no_cdf_q s')
  | _ => false
  end.

Definition nondecreasing (l : list float) : bool :=
  forallb (fun p => PrimFloat.leb (fst p) (snd p)) (zip l (tail l)).

Definition contains (part whole : string) : Prop :=
  ∃ before after : string, whole = (before ++ part ++ after)%string.

(** *** Sample data *)

(** A reader over three stored magnitudes. *)
Definition sample_reader (g r i : list float) : GalaxyCatalog :=
  {| quantities := {[ "g"; "r"; "i" ]};
     get_quantities := fun name _ =>
       if decide (name = "g") then Ok g
       else if decide (name = "r") then Ok r
       else if decide (name = "i") then Ok i
       else Raise KeyError |}.

Definition sample_translate : gmap string string :=
  {[ "g" := "g"; "r" := "r"; "i" := "i"; "z" := "z_band" ]}.

Definition sample_test (colors : list string) : Test :=
  {| colors := colors; limiting_band := None; limiting_mag := None;
     zlo := 0.5; zhi := 1.0; translate := sample_translate;
     load_validation_catalog_q := true; _data_name := "DEEP2" |}.

(** A reference histogram of two bins for every colour. *)
Definition sample_reference : distribution :=
  ([0.5; 1.5]%float, [0.25; 0.75]%float).

Definition sample_external (L2 L1 KS : dict → dict → float * bool) : External :=
  {| L2Diff := L2; L1Diff := L1; KS_test := KS;
     load_DEEP2 := fun colors _ _ => map (fun _ => sample_reference) colors;
     load_SDSS := fun colors _ _ => map (fun _ => sample_reference) colors;
     load_validation_data := fun _ _ _ _ => Ok sample_reference |}.

(** A test whose band Y translates to a quantity the MB2 reader does not
    list. *)
Definition sample_test_Y : Test :=
  {| colors := ["g-Y"]; limiting_band := None; limiting_mag := None;
     zlo := 0.5; zhi := 1.0;
     translate := {[ "g" := "SDSS_g:observed:"; "Y" := "LSST_y:observed:" ]};
     load_validation_catalog_q := true; _data_name := "SDSS" |}.

(** Statistics that stand for [CalcStats] where a closed example needs
    them. *)
Definition sample_stat : dict → dict → float * bool :=
  fun _ _ => (0.5%float, true).

(** The bin arguments [run_validation_test] passes. *)
Definition bin_args : float * float * nat := ((-1)%float, 4%float, 2000).

End ColorDistributionTest.

(** ** More of the two files *)

Module MB2Load.

(** [load], with the attribute [self.redshift] it sets last: the redshift
    of the first row of the table, an [IndexError] on a table with no
    row. *)
Definition load (self : MB2GalaxyCatalog.MB2) (t : MB2GalaxyCatalog.Table)
  : result (MB2GalaxyCatalog.MB2 * float) :=
  let self := MB2GalaxyCatalog.load self t in
  red ← MB2GalaxyCatalog.column (MB2GalaxyCatalog.catalog self) "redshift";
  first ← np.getitem red 0;
  Ok (self, first).

(** A table of two rows, the second with a redshift that is not a
    number. *)
Definition nan_table : list MB2GalaxyCatalog.Row :=
  [ MB2GalaxyCatalog.sample_row 0.7 1.0 (-20.0) (-20.5);
    MB2GalaxyCatalog.sample_row nan 2.0 (-19.0) (-19.5) ]%float.

End MB2Load.

Module ColorDistributionMore.

Import ColorDistributionTest.

(** A row of a quantile table has five numbers. *)
Definition five (row : list float) : Prop := length row = 5.

(** What a stretch of the loop may do to the state: append to the summary
    and to the log, and replace rows of the two tables by rows of five
    numbers. It does not touch the plots or the quantile files. *)
Definition grows (s s' : RunState) : Prop :=
  (∃ lines, summary_txt (files s') = summary_txt (files s) ++ lines)
  ∧ (∃ msgs, log_txt (files s') = log_txt (files s) ++ msgs)
  ∧ plots_saved (files s') = plots_saved (files s)
  ∧ catalog_quantiles_txt (files s') = catalog_quantiles_txt (files s)
  ∧ validation_quantiles_txt (files s') = validation_quantiles_txt (files s)
  ∧ length (catalog_quantiles s') = length (catalog_quantiles s)
  ∧ length (validation_quantiles s') = length (validation_quantiles s)
  ∧ (Forall five (catalog_quantiles s) → Forall five (catalog_quantiles s'))
  ∧ (Forall five (validation_quantiles s)
     → Forall five (validation_quantiles s')).

(** The magnitude sanity test on one galaxy: both magnitudes strictly
    between 0 and 50. *)
Definition sane (m : float * float) : bool :=
  PrimFloat.ltb 0 (fst m) && PrimFloat.ltb (fst m) 50
  && PrimFloat.ltb 0 (snd m) && PrimFloat.ltb (snd m) 50.

(** *** Sample data *)

Definition sample_ext : External :=
  sample_external sample_stat sample_stat sample_stat.

(** A run on no galaxy at all: it returns at the first colour. *)
Definition sample_skipped_dir : Files :=
  write_log (write_summary empty_dir [Window 0.5 1.0]) no_redshift_msg.

(** A run on one galaxy with g = 22 and r = 21.5, for the colour g-r. *)
Definition sample_passed_run : result (TestResult * Files) :=
  run_validation_test sample_ext (sample_test ["g-r"])
    (sample_reader [22.0]%float [21.5]%float []) empty_dir.

Definition sample_passed_dir : Files :=
  match sample_passed_run with
  | Ok (_, dir) => dir
  | Raise _ => empty_dir
  end.

(** A test whose data name is not one of the two the run knows. *)
Definition sample_test_other : Test :=
  {| colors := ["g-r"]; limiting_band := None; limiting_mag := None;
     zlo := 0.5; zhi := 1.0; translate := sample_translate;
     load_validation_catalog_q := true; _data_name := "COSMOS" |}.

(** Collaborators whose reference histograms are empty. *)
Definition empty_reference_ext : External :=
  {| L2Diff := sample_stat; L1Diff := sample_stat; KS_test := sample_stat;
     load_DEEP2 := fun colors _ _ => map (fun _ => ([], [])) colors;
     load_SDSS := fun colors _ _ => map (fun _ => ([], [])) colors;
     load_validation_data := fun _ _ _ _ => Ok ([], []) |}.

End ColorDistributionMore.

Module ColorDistributionInit.

Import ColorDistributionTest.

(** The keyword arguments [__init__] looks at, each present or not. *)
Record kwargs := {
  data_dir : option string;
  data_name : option string;
  kw_colors : option (list string);
  kw_limiting_band : option string;
  kw_limiting_mag : option float;
  kw_zlo : option float;
  kw_zhi : option float;
  kw_translate : option (gmap string string);
}.

(** The loop over [self.colors]: a [ValueError] at the first colour that
    has not three characters with a dash in the middle. *)
Fixpoint check_colors (colors : list string) : result unit :=
  match colors with
  | [] => Ok ()
  | color :: colors' =>
      if bool_decide (String.length color ≠ 3)
         || negb (bool_decide (String.get 1 color = Some "-"%char))
      then Raise ValueError
      else check_colors colors'
  end.

(** [__init__], after the call of the parent class's [__init__]:
    [kwargs['data_dir']] and [kwargs['data_name']] are read first, a
    [KeyError] when absent; then the colours, the limiting band and
    magnitude with [None] for default, the redshift bounds and the
    translation table, each required one a [ValueError] when absent. *)
Definition __init__ (load_validation_catalog_q : bool) (kw : kwargs)
  : result Test :=
  _ ← of_option KeyError (data_dir kw);
  name ← of_option KeyError (data_name kw);
  colors ← of_option ValueError (kw_colors kw);
  _ ← check_colors colors;
  zlo ← of_option ValueError (kw_zlo kw);
  zhi ← of_option ValueError (kw_zhi kw);
  translate ← of_option ValueError (kw_translate kw);
  Ok {| colors := colors;
        limiting_band := kw_limiting_band kw;
        limiting_mag := kw_limiting_mag kw;
        zlo := zlo; zhi := zhi; translate := translate;
        load_validation_catalog_q := load_validation_catalog_q;
        _data_name := name |}.

(** Keyword arguments that [__init__] accepts. *)
Definition sample_kwargs : kwargs :=
  {| data_dir := Some "SDSS"; data_name := Some "SDSS";
     kw_colors := Some ["u-g"; "g-r"];
     kw_limiting_band := None; kw_limiting_mag := None;
     kw_zlo := Some 0.5%float; kw_zhi := Some 1.0%float;
     kw_translate := Some {[ "u" := "SDSS_u:observed:";
                             "g" := "SDSS_g:observed:";
                             "r" := "SDSS_r:observed:" ]} |}.

(** The test [__init__] makes of them. *)
Definition sample_init_test : Test :=
  {| colors := ["u-g"; "g-r"];
     limiting_band := None; limiting_mag := None;
     zlo := 0.5; zhi := 1.0;
     translate := {[ "u" := "SDSS_u:observed:";
                     "g" := "SDSS_g:observed:";
                     "r" := "SDSS_r:observed:" ]};
     load_validation_catalog_q := true; _data_name := "SDSS" |}.

(** Keyword arguments without data_dir. *)
Definition sample_kwargs_no_dir : kwargs :=
  {| data_dir := None; data_name := Some "SDSS";
     kw_colors := None;
     kw_limiting_band := None; kw_limiting_mag := None;
     kw_zlo := None; kw_zhi := None; kw_translate := None |}.

End ColorDistributionInit.

(** * Properties of the reader *)

Section MB2_properties.

Import MB2GalaxyCatalog.

Variable distmod : FlatLambdaCDM → float → float.

(** Runs the binds of [result] and the field reads of a loaded catalogue,
    and leaves the tables alone. *)
Ltac step :=
  cbn [mbind result_bind mret result_ret of_option load catalog Ngals
       cosmology derived quantities h apply_combinator].

(** Reads the arrays and scalars a combinator is given. *)
Ltac step_tuple :=
  cbn [gather _multiply _add_distance_modulus np.getitem lookup list_lookup
       mbind result_bind mret result_ret of_option].

(** ** numpy facts *)

Lemma take_where_from {A B} (f : A → B) (p : A → bool) (pre rows : list A) :
  np.take (map f (pre ++ rows)) (np.where_from (length pre) (map p rows))
  = Ok (map f (List.filter p rows)).
Proof.
  revert pre. induction rows as [|r rows IH]; intros pre; simpl; [done|].
  assert (Hnext : np.take (map f (pre ++ r :: rows))
                    (np.where_from (S (length pre)) (map p rows))
                  = Ok (map f (List.filter p rows))).
  { specialize (IH (pre ++ [r])).
    rewrite <- app_assoc, length_app in IH. simpl in IH.
    by rewrite Nat.add_1_r in IH. }
  destruct (p r); simpl; [|done].
  rewrite Hnext. unfold np.getitem.
  rewrite list_lookup_fmap, list_lookup_middle by done. done.
Qed.

Lemma take_where {A B} (f : A → B) (p : A → bool) (rows : list A) :
  np.take (map f rows) (np.where_ (map p rows)) = Ok (map f (List.filter p rows)).
Proof. apply (take_where_from f p [] rows). Qed.

Lemma zip_with_map_same {A B C D} (g : B → C → D) (f : A → B) (k : A → C)
    (l : list A) :
  zip_with g (map f l) (map k l) = map (fun a => g (f a) (k a)) l.
Proof. induction l as [|a l IH]; simpl; [done|]. by rewrite IH. Qed.

Lemma mask_and_map {A} (p q : A → bool) (rows : list A) :
  mask_and (map p rows) (map q rows) = Ok (map (fun r => p r && q r) rows).
Proof.
  unfold mask_and, np.broadcast2.
  rewrite decide_True by (by rewrite !length_map).
  by rewrite zip_with_map_same.
Qed.

Lemma ones_map {A} (rows : list A) :
  np.ones (length rows) = map (fun _ => true) rows.
Proof. unfold np.ones. induction rows; simpl; [done|]. by f_equal. Qed.

Lemma column_field (t : Table) (name : string) (f : Row → float) :
  field name = Some f → column t name = Ok (map f t).
Proof. unfold column. by intros ->. Qed.

(** ** The filter mask *)

Lemma filter_loop (self : MB2) (filters : gmap string float) (base : Row → bool) :
  ∀ m : gmap string float, m ⊆ filters →
    map_fold (fun filter_name _ acc => filter_step self filters filter_name acc)
             (Ok (map base (catalog self))) m
    = Ok (map (fun r => base r && above_zlo m r && below_zhi m r) (catalog self)).
Proof.
  intros m.
  apply (map_fold_weak_ind (fun acc (m : gmap string float) => m ⊆ filters →
    acc = Ok (map (fun r => base r && above_zlo m r && below_zhi m r)
                  (catalog self)))); clear m.
  - intros _. f_equal. apply map_ext. intros r.
    unfold above_zlo, below_zhi. rewrite !lookup_empty.
    by rewrite !andb_true_r.
  - intros k v m acc Hk IH Hsub.
    assert (Hkv : filters !! k = Some v).
    { eapply lookup_weaken; [|exact Hsub]. apply lookup_insert_eq. }
    rewrite IH; last first.
    { etrans; [|exact Hsub]. by apply insert_subseteq. }
    unfold filter_step. step.
    destruct (decide (k = "zlo")) as [->|Hlo].
    + rewrite Hkv. step.
      rewrite (column_field _ "redshift" redshift) by (vm_compute; reflexivity). step.
      rewrite map_map.
      rewrite (mask_and_map _ (fun r => PrimFloat.ltb v (redshift r))).
      f_equal. apply map_ext. intros r.
      unfold above_zlo, below_zhi.
      rewrite lookup_insert_eq, Hk, lookup_insert_ne by done.
      rewrite andb_true_r.
      destruct (base r), (m !! "zhi"), (PrimFloat.ltb v (redshift r)); step;
        try done; by rewrite ?andb_true_r, ?andb_false_r.
    + destruct (decide (k = "zhi")) as [->|Hhi].
      * rewrite Hkv. step.
        rewrite (column_field _ "redshift" redshift) by (vm_compute; reflexivity). step.
        rewrite map_map.
        rewrite (mask_and_map _ (fun r => PrimFloat.ltb (redshift r) v)).
        f_equal. apply map_ext. intros r.
        unfold above_zlo, below_zhi.
        rewrite lookup_insert_eq, Hk, lookup_insert_ne by done.
        by rewrite andb_true_r.
      * f_equal. apply map_ext. intros r.
        unfold above_zlo, below_zhi.
        by rewrite !lookup_insert_ne by done.
Qed.

(** [_construct_mask] on a loaded catalogue: one boolean per row, true
    exactly on the rows that pass. *)
Lemma construct_mask_passes (t : Table) (filters : gmap string float) :
  _construct_mask (load init t) filters = Ok (map (passes filters) t).
Proof.
  unfold _construct_mask. step.
  rewrite (column_field _ "x" x), (column_field _ "y" y),
    (column_field _ "z" z) by (vm_compute; reflexivity). step.
  unfold np.isfinite. rewrite ones_map, !map_map.
  rewrite mask_and_map. step. rewrite mask_and_map. step.
  rewrite mask_and_map. step.
  rewrite (filter_loop (load init t) filters _ filters) by done.
  step. f_equal.
Qed.

Lemma get_stored_property_rows (t : Table)
    (quantity : string) (f : Row → float) (filters : gmap string float) :
  field quantity = Some f →
  _get_stored_property (load init t) quantity filters
  = Ok (map f (List.filter (passes filters) t)).
Proof.
  intros Hf. unfold _get_stored_property.
  rewrite construct_mask_passes. step.
  rewrite (column_field _ _ _ Hf). step. apply take_where.
Qed.

Lemma gather_one (t : Table) (p : Row → bool) (name : string) (f : Row → float) :
  field name = Some f →
  gather (load init t) (map p t) [name] = Ok [map f (List.filter p t)].
Proof.
  intros Hf. step_tuple. step. rewrite (column_field _ _ _ Hf). step.
  by rewrite take_where.
Qed.

Lemma gather_two (t : Table) (p : Row → bool)
    (n1 n2 : string) (f1 f2 : Row → float) :
  field n1 = Some f1 → field n2 = Some f2 →
  gather (load init t) (map p t) [n1; n2]
  = Ok [map f1 (List.filter p t); map f2 (List.filter p t)].
Proof.
  intros Hf1 Hf2. step_tuple. step.
  rewrite (column_field _ _ _ Hf1). step. rewrite take_where. step.
  rewrite (column_field _ _ _ Hf2). step. by rewrite take_where.
Qed.

(** A derived quantity that multiplies one column by a constant. *)
Lemma get_derived_multiply (t : Table) (quantity src : string)
    (f : Row → float) (c : float) (filters : gmap string float) :
  derived init !! quantity = Some ([src], [c], multiply) →
  field src = Some f →
  _get_derived_property distmod (load init t) quantity filters
  = Ok (map (fun r => (f r * c)%float) (List.filter (passes filters) t)).
Proof.
  intros Hd Hf. unfold _get_derived_property.
  rewrite construct_mask_passes. step. rewrite Hd. step.
  rewrite (gather_one t _ src f Hf). step. step_tuple. by rewrite map_map.
Qed.

(** A derived quantity that adds the distance modulus to a column. *)
Lemma get_derived_distmod (t : Table) (quantity src : string)
    (f : Row → float) (filters : gmap string float) :
  derived init !! quantity = Some ([src; "redshift"], [], add_distance_modulus) →
  field src = Some f →
  _get_derived_property distmod (load init t) quantity filters
  = Ok (map (fun r => (f r + distmod (cosmology init) (redshift r))%float)
            (List.filter (passes filters) t)).
Proof.
  intros Hd Hf. unfold _get_derived_property.
  rewrite construct_mask_passes. step. rewrite Hd. step.
  rewrite (gather_two t _ src "redshift" f redshift Hf)
    by (vm_compute; reflexivity).
  step. step_tuple.
  unfold np.broadcast2. rewrite decide_True by (by rewrite !length_map).
  rewrite map_map. by rewrite zip_with_map_same.
Qed.

(** ** The quantity table *)

Lemma quantities_cases (name : string) (hd : handler) :
  quantities init !! name = Some hd →
  (name, hd) ∈
    [ ("halo_id", get_stored); ("parent_halo_id", get_stored);
      ("redshift", get_stored);
      ("positionX", get_derived); ("positionY", get_derived);
      ("positionZ", get_derived);
      ("velocityX", get_stored); ("velocityY", get_stored);
      ("velocityZ", get_stored);
      ("mass", get_derived); ("stellar_mass", get_derived);
      ("gas_mass", get_stored); ("sfr", get_stored);
      ("SDSS_u:observed:", get_derived); ("SDSS_g:observed:", get_derived);
      ("SDSS_r:observed:", get_derived); ("SDSS_i:observed:", get_derived);
      ("SDSS_z:observed:", get_derived) ].
Proof. intros Hq. by apply elem_of_list_to_map_2 in Hq. Qed.

(** Every listed quantity is answered, row by row, with the value the
    specification gives it, over the rows that pass, in table order. *)
Lemma get_quantities_rows (t : Table) (name : string)
    (filters : gmap string float) :
  is_Some (quantities init !! name) →
  ∃ f : Row → float,
    row_value distmod name = Some f
    ∧ get_quantities distmod (load init t) name filters
      = Ok (map f (List.filter (passes filters) t)).
Proof.
  intros [hd Hq]. unfold get_quantities.
  change (quantities (load init t)) with (quantities init). rewrite Hq.
  apply quantities_cases in Hq.
  repeat (apply elem_of_cons in Hq as [Hq|Hq];
          [ injection Hq as -> ->; eexists; split;
            [ | first [ by apply get_stored_property_rows
                      | by eapply get_derived_multiply
                      | by eapply get_derived_distmod ] ];
            reflexivity
          | ]).
  by apply elem_of_nil in Hq.
Qed.

Lemma passes_depends_on_zlo_zhi (filters filters' : gmap string float) (t : Table) :
  filters' !! "zlo" = filters !! "zlo" →
  filters' !! "zhi" = filters !! "zhi" →
  List.filter (passes filters') t = List.filter (passes filters) t.
Proof.
  intros Hlo Hhi. unfold passes, above_zlo, below_zhi. by rewrite Hlo, Hhi.
Qed.

(** C4. For a listed quantity and any dictionary of filters,
    [get_quantities] returns an array with one entry per catalogue row that
    has finite x, y and z, has [zlo < redshift] when "zlo" is a key and
    [redshift < zhi] when "zhi" is a key; the entries stand in the order of
    the rows; and a dictionary that agrees on "zlo" and "zhi" gives the same
    array, whatever other keys it holds. *)
Theorem get_quantities_filtered_rows (t : Table) (name : string)
    (filters filters' : gmap string float) :
  name ∈ dom (quantities init) →
  ∃ (arr : list float) (f : Row → float),
    get_quantities distmod (load init t) name filters = Ok arr
    ∧ length arr = length (List.filter (passes filters) t)
    ∧ arr = map f (List.filter (passes filters) t)
    ∧ (filters' !! "zlo" = filters !! "zlo" →
       filters' !! "zhi" = filters !! "zhi" →
       get_quantities distmod (load init t) name filters' = Ok arr).
Proof.
  intros Hname. apply elem_of_dom in Hname.
  destruct (get_quantities_rows t name filters Hname) as (f & Hf & Hget).
  exists (map f (List.filter (passes filters) t)), f.
  split; [done|]. split; [by rewrite length_map|]. split; [done|].
  intros Hlo Hhi.
  destruct (get_quantities_rows t name filters' Hname) as (f' & Hf' & Hget').
  rewrite Hget'. rewrite Hf in Hf'. injection Hf' as <-.
  by rewrite (passes_depends_on_zlo_zhi filters filters' t Hlo Hhi).
Qed.

(** C7. On every row that passes the filter mask, the derived "mass" is the
    stored "mass" times [1e10 / h] and the derived "positionX" is the stored
    "x" times [1e-3 / h], with [h = 0.702]. *)
Theorem derived_mass_and_positionX (t : Table) (filters : gmap string float) :
  h init = 0.702%float
  ∧ _get_derived_property distmod (load init t) "mass" filters
    = Ok (map (fun r => (mass r * (1e10 / h init))%float)
              (List.filter (passes filters) t))
  ∧ _get_derived_property distmod (load init t) "positionX" filters
    = Ok (map (fun r => (x r * (1e-3 / h init))%float)
              (List.filter (passes filters) t)).
Proof.
  split; [reflexivity|].
  split; by eapply get_derived_multiply.
Qed.

(** C6. On every row that passes the filter mask, each observed SDSS
    magnitude is the row's rest-frame magnitude plus the distance modulus at
    the row's redshift, in the flat cosmology with [Om0 = 0.275] and
    [H0 = h * 100.0], the binary64 number next below 70.2. *)
Theorem observed_magnitude_adds_distmod (t : Table) (filters : gmap string float) :
  Om0 (cosmology init) = 0.275%float
  ∧ H0 (cosmology init) = (0.702 * 100.0)%float
  ∧ PrimFloat.next_up (H0 (cosmology init)) = 70.2%float
  ∧ ∀ (band : string) (rest : Row → float),
      (band, rest) ∈ sdss_bands →
      _get_derived_property distmod (load init t) band filters
      = Ok (map (fun r => (rest r + distmod (cosmology init) (redshift r))%float)
                (List.filter (passes filters) t)).
Proof.
  split; [reflexivity|]. split; [reflexivity|]. split; [reflexivity|].
  intros band rest Hin. unfold sdss_bands in Hin.
  repeat (apply elem_of_cons in Hin as [Hin|Hin];
          [ injection Hin as -> ->; by eapply get_derived_distmod | ]).
  by apply elem_of_nil in Hin.
Qed.

End MB2_properties.

(** The reader on the sample table, with the window 0.5 to 1.0 and a key it
    does not know: only the first row is returned. *)
Lemma get_quantities_filtered_rows_witness :
  ∃ (arr : list float) (f : MB2GalaxyCatalog.Row → float),
    MB2GalaxyCatalog.get_quantities (fun _ zr => zr)
      (MB2GalaxyCatalog.load MB2GalaxyCatalog.init MB2GalaxyCatalog.sample_table)
      "redshift" {[ "zlo" := 0.5%float; "zhi" := 1.0%float; "mlo" := 3.0%float ]}
    = Ok arr
    ∧ length arr
      = length (List.filter
                  (MB2GalaxyCatalog.passes
                     {[ "zlo" := 0.5%float; "zhi" := 1.0%float; "mlo" := 3.0%float ]})
                  MB2GalaxyCatalog.sample_table)
    ∧ arr = map f (List.filter
                     (MB2GalaxyCatalog.passes
                        {[ "zlo" := 0.5%float; "zhi" := 1.0%float; "mlo" := 3.0%float ]})
                     MB2GalaxyCatalog.sample_table)
    ∧ (({[ "zlo" := 0.5%float; "zhi" := 1.0%float ]} : gmap string float) !! "zlo"
       = ({[ "zlo" := 0.5%float; "zhi" := 1.0%float; "mlo" := 3.0%float ]}
           : gmap string float) !! "zlo" →
       ({[ "zlo" := 0.5%float; "zhi" := 1.0%float ]} : gmap string float) !! "zhi"
       = ({[ "zlo" := 0.5%float; "zhi" := 1.0%float; "mlo" := 3.0%float ]}
           : gmap string float) !! "zhi" →
       MB2GalaxyCatalog.get_quantities (fun _ zr => zr)
         (MB2GalaxyCatalog.load MB2GalaxyCatalog.init MB2GalaxyCatalog.sample_table)
         "redshift" {[ "zlo" := 0.5%float; "zhi" := 1.0%float ]}
       = Ok arr).
Proof.
  apply (get_quantities_filtered_rows (fun _ zr => zr)
           MB2GalaxyCatalog.sample_table "redshift").
  apply elem_of_dom. exists MB2GalaxyCatalog.get_stored.
  vm_compute. reflexivity.
Defined.

Example sample_redshifts :
  MB2GalaxyCatalog.get_quantities (fun _ zr => zr)
    (MB2GalaxyCatalog.load MB2GalaxyCatalog.init MB2GalaxyCatalog.sample_table)
    "redshift" {[ "zlo" := 0.5%float; "zhi" := 1.0%float ]}
  = Ok [0.7%float].
Proof. vm_compute. reflexivity. Qed.

Example sample_positionX :
  MB2GalaxyCatalog.get_quantities (fun _ zr => zr)
    (MB2GalaxyCatalog.load MB2GalaxyCatalog.init MB2GalaxyCatalog.sample_table)
    "positionX" ∅
  = Ok [(1.0 * (1e-3 / 0.702)); (2.0 * (1e-3 / 0.702)); (3.0 * (1e-3 / 0.702))]%float.
Proof. vm_compute. reflexivity. Qed.

(** * Properties of the colour-distribution test *)

Section Test_properties.

Import ColorDistributionTest.

Variable ext : External.
Variable self : Test.
Variable galaxy_catalog : GalaxyCatalog.

(** Runs the binds of [result]. *)
Ltac run := cbn [mbind result_bind mret result_ret of_option].

(** ** Quantiles by first crossing *)

Lemma first_true_bound (mask : list bool) (i : nat) :
  np.first_true mask = Some i → i < length mask.
Proof.
  revert i. induction mask as [|b mask IH]; intros i; simpl; [done|].
  destruct b.
  - intros [= <-]. lia.
  - destruct (np.first_true mask) as [j|]; simpl; [|done].
    intros [= <-]. specialize (IH j eq_refl). lia.
Qed.

Lemma first_true_all_false (mask : list bool) :
  Forall (fun b => b = false) mask → np.first_true mask = None.
Proof.
  induction 1 as [|b mask -> _ IH]; simpl; [done|]. by rewrite IH.
Qed.

Lemma argmax_bound (mask : list bool) :
  mask ≠ [] → ∃ i, np.argmax mask = Ok i ∧ i < length mask.
Proof.
  intros Hne. destruct mask as [|b mask]; [done|].
  exists (default 0 (np.first_true (b :: mask))). split; [done|].
  destruct (np.first_true (b :: mask)) as [i|] eqn:Hi; simpl.
  - apply (first_true_bound (b :: mask) i Hi).
  - simpl. lia.
Qed.

Lemma argmax_all_false (mask : list bool) :
  mask ≠ [] → Forall (fun b => b = false) mask → np.argmax mask = Ok 0.
Proof.
  intros Hne Hall. destruct mask as [|b mask]; [done|].
  unfold np.argmax. by rewrite (first_true_all_false _ Hall).
Qed.

(** C10. Where the CDF is not empty and has a bin centre for each of its
    entries, the first-crossing lookup does not fail and returns one of the
    bin centres; when the CDF never exceeds the threshold it returns the
    first bin centre, the one at index 0. *)
Theorem first_crossing_is_a_bin_center (binctr cdf : list float) (q : float) :
  cdf ≠ [] →
  length binctr = length cdf →
  ∃ (i : nat) (v : float),
    first_crossing binctr cdf q = Ok v
    ∧ binctr !! i = Some v
    ∧ (Forall (fun c => PrimFloat.ltb q c = false) cdf → i = 0).
Proof.
  intros Hne Hlen.
  assert (Hmask : map (fun c => PrimFloat.ltb q c) cdf ≠ []).
  { by destruct cdf. }
  destruct (argmax_bound _ Hmask) as (i & Hi & Hlt).
  rewrite length_map, <- Hlen in Hlt.
  destruct (lookup_lt_is_Some_2 binctr i Hlt) as [v Hv].
  exists i, v. unfold first_crossing. rewrite Hi. run.
  unfold np.getitem. rewrite Hv. split; [done|]. split; [done|].
  intros Hall.
  assert (Hz : np.argmax (map (fun c => PrimFloat.ltb q c) cdf) = Ok 0).
  { apply argmax_all_false; [done|]. by apply Forall_map. }
  rewrite Hi in Hz. by injection Hz.
Qed.

(** ** The histogram of the catalogue *)

Lemma length_cum_counts (a edges : list float) :
  length (np.cum_counts a edges) = length edges.
Proof.
  induction edges as [|e es IH]; [done|].
  destruct es as [|e' es]; [done|].
  change (np.cum_counts a (e :: e' :: es))
    with (np.count_lt a e :: np.cum_counts a (e' :: es)).
  simpl length in *. by rewrite IH.
Qed.

Lemma length_diff (c : list nat) : length (np.diff c) = pred (length c).
Proof.
  induction c as [|x c IH]; [done|].
  destruct c as [|y c]; [done|].
  change (np.diff (x :: y :: c))
    with ((Z.of_nat y - Z.of_nat x)%Z :: np.diff (y :: c)).
  simpl length in *. by rewrite IH.
Qed.

Lemma length_linspace (start stop : float) (num : nat) :
  length (np.linspace start stop num) = num.
Proof.
  destruct num as [|[|k]]; [done..|].
  unfold np.linspace. rewrite length_app, length_map, length_seq. simpl. lia.
Qed.

Lemma length_tail_pred {A} (l : list A) : length (tail l) = pred (length l).
Proof. by destruct l. Qed.

Lemma length_removelast {A} (l : list A) :
  length (removelast l) = pred (length l).
Proof.
  induction l as [|a l IH]; [done|].
  destruct l as [|b l]; [done|].
  change (removelast (a :: b :: l)) with (a :: removelast (b :: l)).
  simpl length in *. by rewrite IH.
Qed.

(** Whatever the data, the histogram step returns as many bin centres as
    normalised counts: one less than the number of edges. *)
Lemma histogram_step_lengths (diffs : list float) (start stop : float) (num : nat) :
  length (fst (histogram_step diffs (start, stop, num))) = pred num
  ∧ length (snd (histogram_step diffs (start, stop, num))) = pred num.
Proof.
  unfold histogram_step, np.histogram, np.true_divide. cbn [fst snd].
  split.
  - rewrite length_zip_with, length_tail_pred, length_removelast, length_linspace.
    lia.
  - by rewrite length_map, length_diff, length_cum_counts, length_linspace.
Qed.

Lemma last_cons_default {A} (z : A) (c : list A) (d1 d2 : A) :
  List.last (z :: c) d1 = List.last (z :: c) d2.
Proof.
  revert z. induction c as [|y c IH]; intros z; [done|].
  change (List.last (y :: c) d1 = List.last (y :: c) d2). apply IH.
Qed.

Lemma last_cons {A} (y : A) (c : list A) (d : A) :
  List.last (y :: c) d = List.last c y.
Proof.
  destruct c as [|z c]; [done|].
  change (List.last (z :: c) d = List.last (z :: c) y).
  apply last_cons_default.
Qed.

(** The counts add up to the number of values up to the last edge less
    the number of values below the first edge: values outside the bins are
    counted nowhere. *)
Lemma sumZ_diff (x : nat) (c : list nat) :
  np.sumZ (np.diff (x :: c)) = (Z.of_nat (List.last c x) - Z.of_nat x)%Z.
Proof.
  revert x. induction c as [|y c IH]; intros x.
  - simpl. lia.
  - change (np.diff (x :: y :: c))
      with ((Z.of_nat y - Z.of_nat x)%Z :: np.diff (y :: c)).
    cbn [np.sumZ foldr]. fold (np.sumZ (np.diff (y :: c))). rewrite IH.
    rewrite last_cons. lia.
Qed.

Lemma cum_counts_head_last (a : list float) (e0 e1 : float) (es : list float) :
  ∃ c : list nat,
    np.cum_counts a (e0 :: e1 :: es) = np.count_lt a e0 :: c
    ∧ List.last c (np.count_lt a e0) = np.count_le a (List.last es e1).
Proof.
  exists (np.cum_counts a (e1 :: es)). split; [done|].
  generalize (np.count_lt a e0). revert e1.
  induction es as [|e2 es IH]; intros e1 d; [done|].
  change (np.cum_counts a (e1 :: e2 :: es))
    with (np.count_lt a e1 :: np.cum_counts a (e2 :: es)).
  rewrite !last_cons. by rewrite <- (IH e2 (np.count_lt a e1)).
Qed.

Lemma histogram_total (a : list float) (e0 e1 : float) (es : list float) :
  np.sumZ (fst (np.histogram a (e0 :: e1 :: es)))
  = (Z.of_nat (np.count_le a (List.last es e1)) - Z.of_nat (np.count_lt a e0))%Z.
Proof.
  unfold np.histogram. cbn [fst].
  destruct (cum_counts_head_last a e0 e1 es) as (c & -> & <-).
  apply sumZ_diff.
Qed.

Lemma length_running (prev : float) (hist : list float) :
  length (running prev hist) = length hist.
Proof.
  revert prev. induction hist as [|v hist IH]; intros prev; simpl; [done|].
  by rewrite IH.
Qed.

(** On the histogram the test makes of any data, with its 2000 edges, every
    quantile lookup succeeds. *)
Lemma catalog_quantiles_never_fail (diffs : list float) (q : float) :
  ∃ (cdf : list float) (v : float),
    prefix_sum (snd (histogram_step diffs ((-1)%float, 4%float, 2000))) = Ok cdf
    ∧ first_crossing (fst (histogram_step diffs ((-1)%float, 4%float, 2000))) cdf q
      = Ok v.
Proof.
  destruct (histogram_step_lengths diffs (-1)%float 4%float 2000) as [Hb Hh].
  destruct (snd (histogram_step diffs ((-1)%float, 4%float, 2000)))
    as [|v0 hist] eqn:Hhist; [done|].
  exists (v0 :: running v0 hist). cbn [prefix_sum].
  destruct (argmax_bound
              (map (fun c => PrimFloat.ltb q c) (v0 :: running v0 hist)))
    as (i & Hi & Hlt); [done|].
  rewrite length_map in Hlt. cbn [length] in Hlt, Hh.
  rewrite length_running, Hh, <- Hb in Hlt.
  destruct (lookup_lt_is_Some_2 _ i Hlt) as [v Hv].
  exists v. split; [done|].
  unfold first_crossing. rewrite Hi. run. unfold np.getitem. by rewrite Hv.
Qed.

(** ** A colour whose band is missing *)

(** A colour [__init__] accepts has a character at positions 0 and 2. *)
Lemma well_formed_color_bands (color : string) :
  well_formed_color color = true →
  ∃ c0 c2 : string, char_at color 0 = Ok c0 ∧ char_at color 2 = Ok c2.
Proof.
  intros Hwf. apply bool_decide_eq_true_1 in Hwf as [Hlen _].
  destruct color as [|a [|b [|c rest]]]; try discriminate Hlen.
  by exists (String a EmptyString), (String c EmptyString).
Qed.

Lemma contains_middle (a part b : string) : contains part (a ++ part ++ b)%string.
Proof. by exists a, b. Qed.

Lemma string_app_assoc (a b c : string) :
  ((a ++ b) ++ c = a ++ (b ++ c))%string.
Proof.
  induction a as [|ch a IH]; [done|].
  change (String ch ((a ++ b) ++ c) = String ch (a ++ (b ++ c)))%string.
  by rewrite IH.
Qed.

Lemma missing_band_msg_names_both (band1 band2 : string) :
  contains band1 (missing_band_msg band1 band2)
  ∧ contains band2 (missing_band_msg band1 band2).
Proof.
  unfold missing_band_msg. split.
  - apply contains_middle.
  - exists ("galaxy catalog does not have `" ++ band1 ++ "` and/or `")%string,
      ("` quantity, skipping the rest of the validation test." ++ nl)%string.
    by rewrite !string_app_assoc.
Qed.

(** C9. A colour one of whose two translated band names is not a key of
    the catalogue's quantity table is skipped: its turn of the loop ends by
    appending to the log one line that holds both band names, changes
    nothing else, and the loop goes on with the colours that follow. *)
Theorem missing_band_skips_color (index : nat) (rest : list nat) (s : RunState)
    (color c0 c2 band1 band2 : string) (obinctr ohist : list float) :
  colors self !! index = Some color →
  char_at color 0 = Ok c0 → translate self !! c0 = Some band1 →
  char_at color 2 = Ok c2 → translate self !! c2 = Some band2 →
  reference ext self index color = Ok (obinctr, ohist) → ohist ≠ [] →
  ¬ (band1 ∈ quantities galaxy_catalog ∧ band2 ∈ quantities galaxy_catalog) →
  process_color ext self galaxy_catalog index s
    = Ok (Next (log_warning s (missing_band_msg band1 band2)))
  ∧ color_loop ext self galaxy_catalog (index :: rest) s
    = color_loop ext self galaxy_catalog rest
        (log_warning s (missing_band_msg band1 band2))
  ∧ log_txt (files (log_warning s (missing_band_msg band1 band2)))
    = log_txt (files s) ++ [missing_band_msg band1 band2]
  ∧ contains band1 (missing_band_msg band1 band2)
  ∧ contains band2 (missing_band_msg band1 band2)
  ∧ summary_txt (files (log_warning s (missing_band_msg band1 band2)))
    = summary_txt (files s)
  ∧ catalog_quantiles (log_warning s (missing_band_msg band1 band2))
    = catalog_quantiles s
  ∧ validation_quantiles (log_warning s (missing_band_msg band1 band2))
    = validation_quantiles s
  ∧ no_cdf_q (log_warning s (missing_band_msg band1 band2)) = no_cdf_q s.
Proof.
  intros Hcolor Hc0 Hb1 Hc2 Hb2 Href Hne Hmissing.
  assert (Hturn : process_color ext self galaxy_catalog index s
                  = Ok (Next (log_warning s (missing_band_msg band1 band2)))).
  { unfold process_color, np.getitem. rewrite Hcolor. run.
    rewrite Hc0. run. rewrite Hb1. run. rewrite Hc2. run. rewrite Hb2. run.
    rewrite Href. run.
    destruct ohist as [|v ohist]; [done|]. cbn [prefix_sum]. run.
    by rewrite decide_False. }
  split; [done|]. split.
  { cbn [color_loop]. rewrite Hturn. by run. }
  split; [done|].
  destruct (missing_band_msg_names_both band1 band2) as [H1 H2].
  by repeat split.
Qed.

(** ** The statistics *)

(** C3, as the code has it. The factor applied to the L2 and L1
    statistics is the square root of the length of the dictionary [d1],
    which has the two keys 'x' and 'y' whatever the number of bins: the
    factor is the square root of 2. On a failed L1 comparison the number
    recorded under 'L1Diff' is the L2 one. *)
Theorem statistics_scale (color : string) (mbinctr mcdf obinctr ocdf : list float) :
  let d1 : dict := [("x", mbinctr); ("y", mcdf)] in
  let d2 : dict := [("x", obinctr); ("y", ocdf)] in
  let root2 := 1.4142135623730951%float in
  statistics ext color mbinctr mcdf obinctr ocdf
  = [ Stat color (snd (L2Diff ext d1 d2)) "L2Diff"
        (fst (L2Diff ext d1 d2) * root2)%float;
      Stat color (snd (L1Diff ext d1 d2)) "L1Diff"
        (if snd (L1Diff ext d1 d2)
         then (fst (L1Diff ext d1 d2) * root2)%float
         else (fst (L2Diff ext d1 d2) * root2)%float);
      Stat color (snd (KS_test ext d1 d2)) "K-S" (fst (KS_test ext d1 d2)) ]
  ∧ np.sqrt_nat 1999 = 44.710177812216315%float.
Proof.
  split; [|by vm_compute].
  unfold statistics. cbn [length].
  change (np.sqrt_nat 2) with 1.4142135623730951%float. reflexivity.
Qed.

(** ** The outcome of a run *)

(** A turn that returns ends the loop there, whatever colours remain. *)
Lemma return_ends_the_loop (index : nat) (rest : list nat) (s s' : RunState)
    (r : TestResult) :
  process_color ext self galaxy_catalog index s = Ok (Return r s') →
  color_loop ext self galaxy_catalog (index :: rest) s = Ok (Return r s').
Proof. intros Hturn. cbn [color_loop]. rewrite Hturn. by run. Qed.

(** The only result a turn returns is SKIPPED. *)
Lemma process_color_returns_skipped (index : nat) (s s' : RunState)
    (r : TestResult) :
  process_color ext self galaxy_catalog index s = Ok (Return r s') →
  status r = "SKIPPED".
Proof.
  unfold process_color.
  repeat match goal with
         | |- context [mbind _ ?m] =>
             destruct m as [?|?] eqn:?; run; [|done]
         | |- context [let '(_, _) := ?p in _] => destruct p
         | |- context [if ?d then _ else _] => destruct d
         | |- context [match ?o with Some _ => _ | None => _ end] => destruct o
         end; try done.
  by intros [= <- _].
Qed.

Lemma color_loop_returns_skipped (indices : list nat) (s s' : RunState)
    (r : TestResult) :
  color_loop ext self galaxy_catalog indices s = Ok (Return r s') →
  status r = "SKIPPED".
Proof.
  revert s. induction indices as [|index indices IH]; intros s; [done|].
  cbn [color_loop].
  destruct (process_color ext self galaxy_catalog index s) as [[s1|r1 s1]|e]
    eqn:Hturn; run; [by apply IH| |done].
  intros [= <- _]. by eapply process_color_returns_skipped.
Qed.

(** A run that returns a result returns PASSED or SKIPPED, and PASSED only
    when the loop ran to its end with [no_cdf_q] cleared. *)
Lemma run_status (dir dir' : Files) (r : TestResult) :
  run_validation_test ext self galaxy_catalog dir = Ok (r, dir') →
  status r = "PASSED" ∨ status r = "SKIPPED".
Proof.
  unfold run_validation_test.
  destruct (color_loop ext self galaxy_catalog _ _) as [[s1|r1 s1]|e] eqn:Hloop;
    run; [| |done].
  - intros [= <- _]. cbn [status]. destruct (no_cdf_q s1); auto.
  - intros [= <- _]. right. by eapply color_loop_returns_skipped.
Qed.

End Test_properties.

(** * Closed instances *)

Section Instances.

Import ColorDistributionTest.

(** A two-bin distribution whose CDF crosses one half in its second bin. *)
Lemma first_crossing_is_a_bin_center_witness :
  ∃ (i : nat) (v : float),
    first_crossing [0.5; 1.5]%float [0.25; 1.0]%float 0.5%float = Ok v
    ∧ [0.5; 1.5]%float !! i = Some v
    ∧ (Forall (fun c => PrimFloat.ltb 0.5 c = false) [0.25; 1.0]%float → i = 0).
Proof.
  apply (first_crossing_is_a_bin_center [0.5; 1.5]%float [0.25; 1.0]%float
           0.5%float); [discriminate | reflexivity].
Defined.

Example crossing_found :
  first_crossing [0.5; 1.5]%float [0.25; 1.0]%float 0.5%float = Ok 1.5%float.
Proof. vm_compute. reflexivity. Qed.

Example crossing_not_found :
  first_crossing [0.5; 1.5]%float [0.25; 1.0]%float 2.0%float = Ok 0.5%float
  ∧ first_crossing [0.5; 1.5]%float [nan; nan]%float 0.5%float = Ok 0.5%float.
Proof. vm_compute. done. Qed.

(** The colours g-z and g-r on a reader that has g and r but not the
    quantity the band z translates to. *)
Lemma missing_band_skips_color_witness :
  let ext := sample_external sample_stat sample_stat sample_stat in
  let self := sample_test ["g-z"; "g-r"] in
  let galaxy_catalog := sample_reader [22.0]%float [21.5]%float [] in
  let s := initial_state self empty_dir in
  let s' := log_warning s (missing_band_msg "g" "z_band") in
  process_color ext self galaxy_catalog 0 s = Ok (Next s')
  ∧ color_loop ext self galaxy_catalog [0; 1] s
    = color_loop ext self galaxy_catalog [1] s'
  ∧ log_txt (files s') = log_txt (files s) ++ [missing_band_msg "g" "z_band"]
  ∧ contains "g" (missing_band_msg "g" "z_band")
  ∧ contains "z_band" (missing_band_msg "g" "z_band")
  ∧ summary_txt (files s') = summary_txt (files s)
  ∧ catalog_quantiles s' = catalog_quantiles s
  ∧ validation_quantiles s' = validation_quantiles s
  ∧ no_cdf_q s' = no_cdf_q s.
Proof.
  intros ext self galaxy_catalog s s'.
  apply (missing_band_skips_color ext self galaxy_catalog 0 [1] s
           "g-z" "g" "z" "g" "z_band" (fst sample_reference) (snd sample_reference)).
  - reflexivity.
  - reflexivity.
  - vm_compute. reflexivity.
  - reflexivity.
  - vm_compute. reflexivity.
  - vm_compute. reflexivity.
  - discriminate.
  - intros [_ Hz]. revert Hz. apply (bool_decide_eq_false_1 _). vm_compute.
    reflexivity.
Defined.

Example run_with_a_missing_band :
  match run_validation_test (sample_external sample_stat sample_stat sample_stat)
          (sample_test ["g-z"; "g-r"])
          (sample_reader [22.0]%float [21.5]%float []) empty_dir with
  | Ok (r, dir) =>
      status r = "PASSED"
      ∧ log_txt dir = [missing_band_msg "g" "z_band"]
      ∧ length (summary_txt dir) = 4
  | Raise _ => False
  end.
Proof. vm_compute. done. Qed.

(** The MB2 reader lists no quantity for the band Y: whatever the distance
    modulus, the colour g-Y is skipped with its line in the log, the tables
    of zeros are written and the run is SKIPPED. *)
Example run_on_MB2_without_the_band
    (distmod : MB2GalaxyCatalog.FlatLambdaCDM → float → float) :
  match run_validation_test (sample_external sample_stat sample_stat sample_stat)
          sample_test_Y
          (of_MB2 distmod
             (MB2GalaxyCatalog.load MB2GalaxyCatalog.init
                MB2GalaxyCatalog.sample_table))
          empty_dir with
  | Ok (r, dir) =>
      status r = "SKIPPED"
      ∧ log_txt dir = [missing_band_msg "SDSS_g:observed:" "LSST_y:observed:"]
      ∧ catalog_quantiles_txt dir = Some [replicate 5 0%float]
      ∧ plots_saved dir = false
  | Raise _ => False
  end.
Proof. vm_compute. done. Qed.

(** ** A colour with no object in range *)

(** C1, on a catalogue of one galaxy with g = 22, r = 21.5 and i = 99, and
    the colours r-i then g-r. No object has r-i magnitudes in range: the
    warning is logged, and the run ends there with SKIPPED. The colour g-r
    is never reached (the summary holds the redshift window and nothing
    else), and neither the quantile tables nor the plots are written. Run on
    g-r alone, the same catalogue gives PASSED. *)
Theorem empty_color_ends_the_run (L2 L1 KS : dict → dict → float * bool) :
  match run_validation_test (sample_external L2 L1 KS)
          (sample_test ["r-i"; "g-r"])
          (sample_reader [22.0]%float [21.5]%float [99.0]%float) empty_dir with
  | Ok (r, dir) =>
      status r = "SKIPPED"
      ∧ log_txt dir = [no_magnitude_msg]
      ∧ summary_txt dir = [Window 0.5 1.0]
      ∧ catalog_quantiles_txt dir = None
      ∧ validation_quantiles_txt dir = None
      ∧ plots_saved dir = false
  | Raise _ => False
  end
  ∧ match run_validation_test (sample_external L2 L1 KS)
            (sample_test ["g-r"])
            (sample_reader [22.0]%float [21.5]%float [99.0]%float) empty_dir with
    | Ok (r, dir) => status r = "PASSED" ∧ length (summary_txt dir) = 4
    | Raise _ => False
    end.
Proof. split; vm_compute; done. Qed.

(** The same with no object in the redshift window at all. *)
Example empty_window_ends_the_run (L2 L1 KS : dict → dict → float * bool) :
  match run_validation_test (sample_external L2 L1 KS)
          (sample_test ["r-i"; "g-r"]) (sample_reader [] [] []) empty_dir with
  | Ok (r, dir) =>
      status r = "SKIPPED"
      ∧ log_txt dir = [no_redshift_msg]
      ∧ summary_txt dir = [Window 0.5 1.0]
      ∧ catalog_quantiles_txt dir = None
  | Raise _ => False
  end.
Proof. vm_compute. done. Qed.

(** C2, on the same catalogue with the colours g-r then r-i. The colour g-r
    produces a valid CDF comparison (its three statistics are in the
    summary), the colour r-i has no object in range, and the run returns
    SKIPPED. *)
Theorem skipped_after_a_valid_comparison (L2 L1 KS : dict → dict → float * bool) :
  produces_comparison (sample_external L2 L1 KS) (sample_test ["g-r"; "r-i"])
    (sample_reader [22.0]%float [21.5]%float [99.0]%float) 0
    (initial_state (sample_test ["g-r"; "r-i"]) empty_dir) = true
  ∧ match run_validation_test (sample_external L2 L1 KS)
            (sample_test ["g-r"; "r-i"])
            (sample_reader [22.0]%float [21.5]%float [99.0]%float) empty_dir with
    | Ok (r, dir) =>
        status r = "SKIPPED"
        ∧ length (summary_txt dir) = 4
        ∧ log_txt dir = [no_magnitude_msg]
        ∧ catalog_quantiles_txt dir = None
    | Raise _ => False
    end.
Proof. split; vm_compute; done. Qed.

(** ** A histogram with no count *)

(** C5, on one galaxy with g = 25 and r = 15. Both magnitudes pass the
    sanity filter, their difference 10 lies outside the bins from -1 to 4,
    every count is 0, and each normalised value is 0/0: the 1999 values are
    not numbers and neither is their sum. *)
Theorem histogram_without_counts_is_nan :
  color_distribution (sample_test ["g-r"])
    (sample_reader [25.0]%float [15.0]%float []) "g" "r" bin_args empty_dir
  = Ok (empty_dir, Some (histogram_step [10.0]%float bin_args))
  ∧ np.sumZ (fst (np.histogram [10.0]%float (np.linspace (-1) 4 2000))) = 0%Z
  ∧ length (snd (histogram_step [10.0]%float bin_args)) = 1999
  ∧ forallb PrimFloat.is_nan (snd (histogram_step [10.0]%float bin_args)) = true
  ∧ PrimFloat.is_nan (np.sum (snd (histogram_step [10.0]%float bin_args))) = true
  ∧ PrimFloat.eqb (np.sum (snd (histogram_step [10.0]%float bin_args))) 1 = false.
Proof. vm_compute. done. Qed.

(** C8, on the same histogram. Its prefix sum holds no number: consecutive
    entries do not compare as non-decreasing and the last one is not 1. *)
Theorem cdf_without_counts_is_nan :
  match prefix_sum (snd (histogram_step [10.0]%float bin_args)) with
  | Ok cdf =>
      length cdf = 1999
      ∧ forallb PrimFloat.is_nan cdf = true
      ∧ nondecreasing cdf = false
      ∧ PrimFloat.eqb (List.last cdf 0%float) 1 = false
  | Raise _ => False
  end.
Proof. vm_compute. done. Qed.

(** With counts, here two galaxies in two bins, the values sum to 1 and
    the CDF rises to 1. *)
Example histogram_with_counts :
  np.sum (snd (histogram_step [0.5; 1.0]%float bin_args)) = 1%float
  ∧ match prefix_sum (snd (histogram_step [0.5; 1.0]%float bin_args)) with
    | Ok cdf => nondecreasing cdf = true ∧ List.last cdf 0%float = 1%float
    | Raise _ => False
    end.
Proof. vm_compute. done. Qed.

(** Six galaxies, one sixth each: in binary64 the six values add up to the
    number next below 1. *)
Example histogram_sum_is_rounded :
  np.sum (snd (histogram_step [0.5; 0.5; 1.0; 4.0; -1.0; 3.25]%float bin_args))
  = 0.99999999999999989%float.
Proof. vm_compute. reflexivity. Qed.

End Instances.

(** * More properties of the reader *)

Section MB2_more.

Import MB2GalaxyCatalog.

Variable distmod : FlatLambdaCDM → float → float.

Ltac step :=
  cbn [mbind result_bind mret result_ret of_option load catalog Ngals
       cosmology derived quantities h apply_combinator].

(** X1. [_construct_mask] on a loaded catalogue returns one boolean per row,
    in row order, true exactly on the rows with finite coordinates that lie
    inside the redshift bounds the dictionary gives. *)
Theorem construct_mask_marks_passing_rows (t : Table) (filters : gmap string float) :
  _construct_mask (load init t) filters = Ok (map (passes filters) t)
  ∧ ∀ mask, _construct_mask (load init t) filters = Ok mask →
      length mask = Ngals (load init t).
Proof.
  rewrite construct_mask_passes. split; [done|].
  intros mask [= <-]. by rewrite length_map.
Qed.

(** X2. For a name that is a column of the table, [_get_stored_property]
    returns that column as stored, on the rows that pass, in row order. *)
Theorem stored_property_is_the_column (t : Table) (name : string)
    (f : Row → float) (filters : gmap string float) :
  field name = Some f →
  _get_stored_property (load init t) name filters
  = Ok (map f (List.filter (passes filters) t)).
Proof. apply get_stored_property_rows. Qed.

(** X3. For a name that is no column of the table, [_get_stored_property]
    raises [KeyError], whatever the table and the filters. *)
Theorem stored_property_of_unknown_column (t : Table) (name : string)
    (filters : gmap string float) :
  field name = None →
  _get_stored_property (load init t) name filters = Raise KeyError.
Proof.
  intros Hf. unfold _get_stored_property.
  rewrite construct_mask_passes. step. unfold column. by rewrite Hf.
Qed.

(** X4. For a name that has no entry in the table of derived quantities,
    [_get_derived_property] raises [KeyError]. *)
Theorem derived_property_of_unknown_name (t : Table) (name : string)
    (filters : gmap string float) :
  derived init !! name = None →
  _get_derived_property distmod (load init t) name filters = Raise KeyError.
Proof.
  intros Hd. unfold _get_derived_property.
  rewrite construct_mask_passes. step. by rewrite Hd.
Qed.

(** X5. On every row that passes, the derived "stellar_mass" is the stored
    one times [1e10 / h], and the derived "positionY" and "positionZ" are
    the stored "y" and "z" times [1e-3 / h]. *)
Theorem derived_stellar_mass_and_positions (t : Table) (filters : gmap string float) :
  _get_derived_property distmod (load init t) "stellar_mass" filters
  = Ok (map (fun r => (stellar_mass r * (1e10 / h init))%float)
            (List.filter (passes filters) t))
  ∧ _get_derived_property distmod (load init t) "positionY" filters
    = Ok (map (fun r => (y r * (1e-3 / h init))%float)
              (List.filter (passes filters) t))
  ∧ _get_derived_property distmod (load init t) "positionZ" filters
    = Ok (map (fun r => (z r * (1e-3 / h init))%float)
              (List.filter (passes filters) t)).
Proof.
  repeat split; by eapply get_derived_multiply.
Qed.

(** X6. Two quantities of the table asked with the same filters give arrays
    of the same length. *)
Theorem quantities_have_equal_lengths (t : Table) (name1 name2 : string)
    (filters : gmap string float) :
  name1 ∈ dom (quantities init) →
  name2 ∈ dom (quantities init) →
  ∃ a1 a2 : list float,
    get_quantities distmod (load init t) name1 filters = Ok a1
    ∧ get_quantities distmod (load init t) name2 filters = Ok a2
    ∧ length a1 = length a2.
Proof.
  intros H1 H2. apply elem_of_dom in H1, H2.
  destruct (get_quantities_rows distmod t name1 filters H1) as (f1 & _ & Hg1).
  destruct (get_quantities_rows distmod t name2 filters H2) as (f2 & _ & Hg2).
  eexists _, _. split; [exact Hg1|]. split; [exact Hg2|].
  by rewrite !length_map.
Qed.

Lemma filter_sublist {A} (p q : A → bool) (l : list A) :
  (∀ a, p a = true → q a = true) →
  sublist (List.filter p l) (List.filter q l).
Proof.
  intros Hpq. induction l as [|a l IH]; simpl; [done|].
  destruct (p a) eqn:Hp.
  - rewrite (Hpq a Hp). by apply sublist_skip.
  - destruct (q a); [by apply sublist_cons|done].
Qed.

Lemma passes_without_filters (filters : gmap string float) (r : Row) :
  passes filters r = true → passes ∅ r = true.
Proof.
  unfold passes, above_zlo, below_zhi. rewrite !lookup_empty.
  rewrite !andb_true_r. intros H.
  apply andb_true_iff in H as [H _]. by apply andb_true_iff in H as [H _].
Qed.

(** X7. Filters only remove rows: what a stored quantity returns under any
    dictionary of filters is a sublist of what it returns under the empty
    dictionary. *)
Theorem filters_only_remove_rows (t : Table) (name : string)
    (f : Row → float) (filters : gmap string float) :
  field name = Some f →
  ∃ filtered every : list float,
    _get_stored_property (load init t) name filters = Ok filtered
    ∧ _get_stored_property (load init t) name ∅ = Ok every
    ∧ sublist filtered every.
Proof.
  intros Hf. eexists _, _.
  split; [by apply get_stored_property_rows|].
  split; [by apply get_stored_property_rows|].
  apply (fmap_sublist f), filter_sublist, passes_without_filters.
Qed.

(** ** Comparisons of binary64 numbers *)

Lemma ltb_nan_r (v : float) : PrimFloat.ltb v nan = false.
Proof.
  rewrite FloatAxioms.ltb_spec. change (Prim2SF nan) with S754_nan.
  unfold SFltb, SFcompare. destruct (Prim2SF v) as [| | |[] ? ?]; reflexivity.
Qed.

Lemma ltb_nan_l (v : float) : PrimFloat.ltb nan v = false.
Proof.
  rewrite FloatAxioms.ltb_spec. change (Prim2SF nan) with S754_nan.
  reflexivity.
Qed.

Lemma ltb_irrefl (v : float) : PrimFloat.ltb v v = false.
Proof.
  rewrite FloatAxioms.ltb_spec. unfold SFltb, SFcompare.
  destruct (Prim2SF v) as [[]|[]| |[] m e]; try reflexivity.
  - rewrite Z.compare_refl. by rewrite Pos.compare_cont_refl.
  - rewrite Z.compare_refl. by rewrite Pos.compare_cont_refl.
Qed.

(** X8. A row whose redshift is not a number is dropped by the mask as soon
    as the dictionary holds "zlo" or "zhi". *)
Theorem nan_redshift_is_filtered_out (t : list Row) (filters : gmap string float)
    (i : nat) (r : Row) :
  t !! i = Some r →
  redshift r = nan →
  is_Some (filters !! "zlo") ∨ is_Some (filters !! "zhi") →
  ∃ mask, _construct_mask (load init t) filters = Ok mask
          ∧ mask !! i = Some false.
Proof.
  intros Hi Hnan Hkey. exists (map (passes filters) t).
  split; [apply construct_mask_passes|].
  change (map (passes filters) t) with (passes filters <$> t).
  rewrite list_lookup_fmap, Hi. cbn [fmap option_fmap option_map]. f_equal.
  unfold passes, above_zlo, below_zhi. rewrite Hnan.
  destruct Hkey as [[v ->]|[v ->]].
  - by rewrite ltb_nan_r, andb_false_r.
  - by rewrite ltb_nan_l, andb_false_r.
Qed.

(** X9. The redshift window is open: a row whose redshift equals the value
    given for "zlo", or the one given for "zhi", is dropped by the mask. *)
Theorem window_bounds_are_excluded (t : list Row) (filters : gmap string float)
    (i : nat) (r : Row) :
  t !! i = Some r →
  filters !! "zlo" = Some (redshift r) ∨ filters !! "zhi" = Some (redshift r) →
  ∃ mask, _construct_mask (load init t) filters = Ok mask
          ∧ mask !! i = Some false.
Proof.
  intros Hi Hkey. exists (map (passes filters) t).
  split; [apply construct_mask_passes|].
  change (map (passes filters) t) with (passes filters <$> t).
  rewrite list_lookup_fmap, Hi. cbn [fmap option_fmap option_map]. f_equal.
  unfold passes, above_zlo, below_zhi.
  destruct Hkey as [->| ->]; by rewrite ltb_irrefl, ?andb_false_r.
Qed.

(** X10. [load] fails with [IndexError] exactly on a table with no row; on
    any other table it sets [Ngals] to the number of rows and
    [self.redshift] to the redshift of the first row. *)
Theorem load_needs_a_row (t : Table) :
  (MB2Load.load init t = Raise IndexError ↔ t = [])
  ∧ ∀ (r : Row) (rest : Table),
      t = r :: rest →
      ∃ self, MB2Load.load init t = Ok (self, redshift r)
              ∧ Ngals self = length t ∧ catalog self = t.
Proof.
  unfold MB2Load.load. step.
  rewrite (column_field _ "redshift" redshift) by (vm_compute; reflexivity).
  step. split.
  - destruct t; [done|]. split; discriminate.
  - intros r rest ->. by eexists.
Qed.

End MB2_more.

(** * More properties of the colour-distribution test *)

Section Test_more.

Import ColorDistributionTest ColorDistributionMore.

Variable ext : External.
Variable self : Test.
Variable galaxy_catalog : GalaxyCatalog.

Ltac run := cbn [mbind result_bind mret result_ret of_option].

(** Splits on every bind, pair, test and option of the goal, closing the
    branches that raise. *)
Ltac split_binds :=
  repeat match goal with
         | |- context [mbind _ ?m] =>
             destruct m as [?|?] eqn:?; run; [|done]
         | |- context [let '(_, _) := ?p in _] => destruct p
         | |- context [if ?d then _ else _] => destruct d
         | |- context [match ?o with Some _ => _ | None => _ end] => destruct o
         end.

(** What [color_distribution] can return: nothing, with one of its two
    messages appended to the log, or a distribution, with the files as
    they were. *)
Lemma color_distribution_cases (band1 band2 : string)
    (ba : float * float * nat) (fs fs' : Files) (found : option distribution) :
  color_distribution self galaxy_catalog band1 band2 ba fs = Ok (fs', found) →
  (found = None ∧ (fs' = write_log fs no_redshift_msg
                   ∨ fs' = write_log fs no_magnitude_msg))
  ∨ (is_Some found ∧ fs' = fs).
Proof.
  unfold color_distribution. split_binds; intros [= <- <-]; eauto.
Qed.

(** What [compare] leaves: three more lines in the summary, the row of the
    colour in each table replaced by five numbers, [no_cdf_q] cleared. *)
Lemma compare_cases (index : nat) (color : string)
    (obinctr ocdf mbinctr mhist : list float) (s s' : RunState) :
  compare ext index color obinctr ocdf mbinctr mhist s = Ok s' →
  ∃ (lines : list summary_line) (mrow orow : list float),
    length lines = 3 ∧ length mrow = 5 ∧ length orow = 5
    ∧ s' = {| files := write_summary (files s) lines;
              catalog_quantiles := <[index := mrow]> (catalog_quantiles s);
              validation_quantiles := <[index := orow]> (validation_quantiles s);
              no_cdf_q := false |}.
Proof.
  unfold compare. split_binds. intros [= <-].
  eexists _, _, _. by repeat split.
Qed.

(** The ways one turn of the loop can end without an exception. *)
Lemma process_color_cases (index : nat) (s : RunState) (t : turn) :
  process_color ext self galaxy_catalog index s = Ok t →
  (∃ msg, t = Next (log_warning s msg))
  ∨ (∃ msg, t = Return {| status := "SKIPPED"; summary := "" |}
                  (log_warning s msg))
  ∨ (∃ (lines : list summary_line) (mrow orow : list float),
       length lines = 3 ∧ length mrow = 5 ∧ length orow = 5
       ∧ t = Next {| files := write_summary (files s) lines;
                     catalog_quantiles := <[index := mrow]> (catalog_quantiles s);
                     validation_quantiles :=
                       <[index := orow]> (validation_quantiles s);
                     no_cdf_q := false |}).
Proof.
  unfold process_color.
  repeat match goal with
         | |- context [mbind _ ?m] =>
             lazymatch m with
             | color_distribution _ _ _ _ _ _ => fail
             | compare _ _ _ _ _ _ _ _ => fail
             | _ => destruct m as [?|?] eqn:?; run; [|done]
             end
         | |- context [let '(_, _) := ?p in _] => destruct p
         end.
  destruct (decide _); [|intros [= <-]; eauto].
  destruct (color_distribution _ _ _ _ _ _) as [[fs' found]|?] eqn:Hcd;
    run; [|done].
  apply color_distribution_cases in Hcd as [[-> Hfs]|[[d ->] ->]].
  - intros [= <-]. right. left.
    destruct Hfs as [-> | ->];
      [by exists no_redshift_msg | by exists no_magnitude_msg].
  - destruct d as [mbinctr mhist].
    destruct (compare _ _ _ _ _ _ _ _) as [s'|?] eqn:Hcmp; run; [|done].
    intros [= <-]. right. right.
    apply compare_cases in Hcmp as (lines & mrow & orow & ? & ? & ? & ->).
    exists lines, mrow, orow. by repeat split.
Qed.

(** ** What the loop keeps *)

Lemma grows_refl (s : RunState) : grows s s.
Proof.
  unfold grows. repeat split; try done; by exists []; rewrite app_nil_r.
Qed.

Lemma grows_trans (s1 s2 s3 : RunState) : grows s1 s2 → grows s2 s3 → grows s1 s3.
Proof.
  intros ([l1 Hs1] & [m1 Hl1] & Hp1 & Hc1 & Hv1 & Hn1 & Hm1 & Hf1 & Hg1)
         ([l2 Hs2] & [m2 Hl2] & Hp2 & Hc2 & Hv2 & Hn2 & Hm2 & Hf2 & Hg2).
  unfold grows. repeat split; try congruence; auto.
  - exists (l1 ++ l2). by rewrite Hs2, Hs1, app_assoc.
  - exists (m1 ++ m2). by rewrite Hl2, Hl1, app_assoc.
Qed.

Lemma grows_log_warning (s : RunState) (msg : string) :
  grows s (log_warning s msg).
Proof.
  unfold grows. cbn. repeat split; try done.
  - by exists []; rewrite app_nil_r.
  - by exists [msg].
Qed.

Lemma Forall_five_insert (rows : list (list float)) (i : nat) (row : list float) :
  length row = 5 → Forall five rows → Forall five (<[i := row]> rows).
Proof. intros Hrow Hall. by apply Forall_insert. Qed.

Lemma process_color_grows (index : nat) (s : RunState) (t : turn) :
  process_color ext self galaxy_catalog index s = Ok t →
  match t with Next s' | Return _ s' => grows s s' end.
Proof.
  intros Ht.
  apply process_color_cases in Ht
    as [[msg ->]|[[msg ->]|(lines & mrow & orow & _ & Hm & Ho & ->)]].
  - apply grows_log_warning.
  - apply grows_log_warning.
  - unfold grows. cbn. repeat split; try done.
    + by exists lines.
    + by exists []; rewrite app_nil_r.
    + by rewrite length_insert.
    + by rewrite length_insert.
    + by apply Forall_five_insert.
    + by apply Forall_five_insert.
Qed.

Lemma color_loop_grows (indices : list nat) (s : RunState) (t : turn) :
  color_loop ext self galaxy_catalog indices s = Ok t →
  match t with Next s' | Return _ s' => grows s s' end.
Proof.
  revert s. induction indices as [|index indices IH]; intros s.
  - intros [= <-]. apply grows_refl.
  - cbn [color_loop].
    destruct (process_color ext self galaxy_catalog index s) as [t1|e]
      eqn:Hturn; run; [|done].
    apply process_color_grows in Hturn. destruct t1 as [s1|r1 s1].
    + intros Hrest. apply IH in Hrest.
      destruct t; by eapply grows_trans.
    + by intros [= <-].
Qed.

Lemma initial_state_shape (dir : Files) :
  length (catalog_quantiles (initial_state self dir)) = length (colors self)
  ∧ length (validation_quantiles (initial_state self dir)) = length (colors self)
  ∧ Forall five (catalog_quantiles (initial_state self dir))
  ∧ Forall five (validation_quantiles (initial_state self dir)).
Proof.
  cbn. rewrite !length_replicate. repeat split; try done;
    by apply Forall_replicate.
Qed.

(** X11. A run that returns only appends to [summary.txt] and [log.txt]:
    what they held before is still there, followed in the summary by the
    line of the redshift window. *)
Theorem run_files_are_append_only (dir dir' : Files) (r : TestResult) :
  run_validation_test ext self galaxy_catalog dir = Ok (r, dir') →
  ∃ (lines : list summary_line) (msgs : list string),
    summary_txt dir' = summary_txt dir ++ Window (zlo self) (zhi self) :: lines
    ∧ log_txt dir' = log_txt dir ++ msgs.
Proof.
  unfold run_validation_test.
  destruct (color_loop ext self galaxy_catalog _ _) as [t|e] eqn:Hloop;
    run; [|done].
  apply color_loop_grows in Hloop.
  assert (Hend : ∀ s', grows (initial_state self dir) s' →
            ∃ lines msgs,
              summary_txt (files s')
              = summary_txt dir ++ Window (zlo self) (zhi self) :: lines
              ∧ log_txt (files s') = log_txt dir ++ msgs).
  { intros s' ([lines Hs] & [msgs Hl] & _). exists lines, msgs.
    cbn in Hs, Hl. by rewrite Hs, Hl, <- app_assoc. }
  destruct t as [s1|r1 s1]; intros [= <- <-].
  - destruct (Hend s1 Hloop) as (lines & msgs & Hs & Hl).
    exists lines, msgs. by destruct (no_cdf_q s1).
  - by apply Hend.
Qed.

(** X12. A run that returns PASSED has saved the two plots and written the
    two quantile tables, each with one row of five numbers per colour. *)
Theorem passed_run_saves_everything (dir dir' : Files) (r : TestResult) :
  run_validation_test ext self galaxy_catalog dir = Ok (r, dir') →
  status r = "PASSED" →
  plots_saved dir' = true
  ∧ ∃ cq vq : list (list float),
      catalog_quantiles_txt dir' = Some cq
      ∧ validation_quantiles_txt dir' = Some vq
      ∧ length cq = length (colors self)
      ∧ length vq = length (colors self)
      ∧ Forall five cq ∧ Forall five vq.
Proof.
  unfold run_validation_test.
  destruct (color_loop ext self galaxy_catalog _ _) as [t|e] eqn:Hloop;
    run; [|done].
  destruct t as [s1|r1 s1]; intros [= <- <-].
  - cbn [status]. destruct (no_cdf_q s1); [discriminate|]. intros _.
    apply color_loop_grows in Hloop
      as (_ & _ & _ & _ & _ & Hn & Hm & Hf & Hg).
    destruct (initial_state_shape dir) as (Hn0 & Hm0 & Hf0 & Hg0).
    split; [done|]. eexists _, _. cbn.
    split; [done|]. split; [done|].
    rewrite Hn, Hm. auto.
  - intros Hpassed.
    apply (color_loop_returns_skipped ext self galaxy_catalog) in Hloop.
    rewrite Hloop in Hpassed. discriminate.
Qed.

(** X13. A turn of the loop writes no row of the quantile tables but the
    one of its own colour. *)
Theorem turn_writes_only_its_row (index j : nat) (s s' : RunState) :
  process_color ext self galaxy_catalog index s = Ok (Next s') →
  j ≠ index →
  catalog_quantiles s' !! j = catalog_quantiles s !! j
  ∧ validation_quantiles s' !! j = validation_quantiles s !! j.
Proof.
  intros Ht Hj.
  apply process_color_cases in Ht
    as [[msg [= ->]]|[[msg [=]]|(lines & mrow & orow & _ & _ & _ & [= ->])]].
  - done.
  - cbn. by rewrite !list_lookup_insert_ne.
Qed.

(** X14. A run never returns FAILED: the status of a returned result is
    PASSED or SKIPPED. *)
Theorem run_never_returns_failed (dir dir' : Files) (r : TestResult) :
  run_validation_test ext self galaxy_catalog dir = Ok (r, dir') →
  status r ≠ "FAILED" ∧ (status r = "PASSED" ∨ status r = "SKIPPED").
Proof.
  intros Hrun.
  apply (run_status ext self galaxy_catalog) in Hrun as [H|H];
    rewrite H; split; auto; discriminate.
Qed.

Lemma first_turn (color : string) (rest : list string) (dir : Files) :
  colors self = color :: rest →
  run_validation_test ext self galaxy_catalog dir
  = (t ← (t ← process_color ext self galaxy_catalog 0 (initial_state self dir);
          match t with
          | Next s' => color_loop ext self galaxy_catalog
                         (seq 1 (length rest)) s'
          | Return r s' => Ok (Return r s')
          end);
     match t with
     | Return r s => Ok (r, files s)
     | Next s =>
         let dir := if no_cdf_q s then files s else save_plots (files s) in
         let dir := save_quantiles dir (catalog_quantiles s)
                                   (validation_quantiles s) in
         Ok ({| status := if no_cdf_q s then "SKIPPED" else "PASSED";
                summary := "" |}, dir)
     end).
Proof. intros Hc. unfold run_validation_test. by rewrite Hc. Qed.

(** X15. With the validation catalogue to be loaded and a data name that is
    neither DEEP2 nor SDSS, the run raises [NameError] at the first colour
    (Python's UnboundLocalError, a kind of NameError): [vsummary] was never
    bound. *)
Theorem unknown_data_name_is_NameError (dir : Files) (color : string)
    (rest : list string) (c0 c2 band1 band2 : string) :
  load_validation_catalog_q self = true →
  _data_name self ≠ "DEEP2" → _data_name self ≠ "SDSS" →
  colors self = color :: rest →
  char_at color 0 = Ok c0 → translate self !! c0 = Some band1 →
  char_at color 2 = Ok c2 → translate self !! c2 = Some band2 →
  run_validation_test ext self galaxy_catalog dir = Raise NameError.
Proof.
  intros Hq Hd Hs Hc Hc0 Hb1 Hc2 Hb2.
  rewrite (first_turn color rest dir Hc).
  unfold process_color, np.getitem. rewrite Hc. cbn [lookup list_lookup]. run.
  rewrite Hc0. run. rewrite Hb1. run. rewrite Hc2. run. rewrite Hb2. run.
  unfold reference, vsummary. rewrite Hq.
  by rewrite !decide_False.
Qed.

(** X16. A band letter of the first colour that the translation table does
    not hold makes the run raise [KeyError], before the catalogue is
    looked at. *)
Theorem missing_translation_is_KeyError (dir : Files) (color : string)
    (rest : list string) (c0 c2 : string) :
  colors self = color :: rest →
  char_at color 0 = Ok c0 → char_at color 2 = Ok c2 →
  translate self !! c0 = None ∨ translate self !! c2 = None →
  run_validation_test ext self galaxy_catalog dir = Raise KeyError.
Proof.
  intros Hc Hc0 Hc2 Hmiss.
  rewrite (first_turn color rest dir Hc).
  unfold process_color, np.getitem. rewrite Hc. cbn [lookup list_lookup]. run.
  rewrite Hc0. run.
  destruct (translate self !! c0) as [band1|] eqn:Hb1; run; [|done].
  rewrite Hc2. run.
  destruct Hmiss as [?|Hb2]; [done|]. by rewrite Hb2.
Qed.

(** X17. The reference histogram of a colour is summed before the bands are
    looked up in the catalogue: an empty one ends the turn with
    [IndexError], whether the catalogue has the bands or not. *)
Theorem empty_reference_is_IndexError (index : nat) (s : RunState)
    (color c0 c2 band1 band2 : string) (obinctr : list float) :
  colors self !! index = Some color →
  char_at color 0 = Ok c0 → translate self !! c0 = Some band1 →
  char_at color 2 = Ok c2 → translate self !! c2 = Some band2 →
  reference ext self index color = Ok (obinctr, []) →
  process_color ext self galaxy_catalog index s = Raise IndexError.
Proof.
  intros Hcolor Hc0 Hb1 Hc2 Hb2 Href.
  unfold process_color, np.getitem. rewrite Hcolor. run.
  rewrite Hc0. run. rewrite Hb1. run. rewrite Hc2. run. rewrite Hb2. run.
  by rewrite Href.
Qed.

(** ** Quantiles and histograms *)

Lemma first_true_at (mask : list bool) (i : nat) :
  mask !! i = Some true →
  (∀ j, j < i → mask !! j = Some false) →
  np.first_true mask = Some i.
Proof.
  revert i. induction mask as [|b mask IH]; intros i Hi Hbefore; [done|].
  destruct i as [|i].
  - injection Hi as ->. done.
  - assert (Hb : b = false).
    { specialize (Hbefore 0 ltac:(lia)). by injection Hbefore. }
    subst b. cbn [np.first_true]. rewrite (IH i); [done|done|].
    intros j Hj. apply (Hbefore (S j)). lia.
Qed.

(** X18. The quantile lookup returns the centre of the first bin whose CDF
    value exceeds the threshold: if entry [i] of the CDF exceeds it and no
    earlier entry does, the result is [binctr[i]], an [IndexError] when
    there is no such bin centre. *)
Theorem first_crossing_is_the_first (binctr cdf : list float) (q : float)
    (i : nat) :
  (∃ c, cdf !! i = Some c ∧ PrimFloat.ltb q c = true) →
  (∀ j c, j < i → cdf !! j = Some c → PrimFloat.ltb q c = false) →
  first_crossing binctr cdf q = np.getitem binctr i.
Proof.
  intros (c & Hi & Hc) Hbefore. unfold first_crossing.
  assert (Hfirst : np.first_true (map (fun c => PrimFloat.ltb q c) cdf) = Some i).
  { apply first_true_at.
    - change (((fun c => PrimFloat.ltb q c) <$> cdf) !! i = Some true).
      by rewrite list_lookup_fmap, Hi; cbn; rewrite Hc.
    - intros j Hj.
      change (((fun c => PrimFloat.ltb q c) <$> cdf) !! j = Some false).
      rewrite list_lookup_fmap.
      destruct (cdf !! j) as [c'|] eqn:Hcj.
      + cbn. by rewrite (Hbefore j c' Hj Hcj).
      + apply lookup_ge_None in Hcj. apply lookup_lt_Some in Hi. lia. }
  unfold np.argmax. rewrite Hfirst.
  destruct cdf; [done|]. by run.
Qed.


(** X20. The histogram of the colours is normalised by the number of
    differences that lie between -1 and 4, bounds included, which is not
    the number of galaxies when some difference lies outside. *)
Theorem histogram_total_counts_in_range (diffs : list float) :
  np.sumZ (fst (np.histogram diffs (np.linspace (-1) 4 2000)))
  = (Z.of_nat (np.count_le diffs 4) - Z.of_nat (np.count_lt diffs (-1)))%Z.
Proof.
  assert (Hhead : hd 0%float (np.linspace (-1) 4 2000) = (-1)%float)
    by (vm_compute; reflexivity).
  assert (Hlast : List.last (np.linspace (-1) 4 2000) 0%float = 4%float)
    by (vm_compute; reflexivity).
  assert (Hlen : length (np.linspace (-1) 4 2000) = 2000)
    by apply length_linspace.
  destruct (np.linspace (-1) 4 2000) as [|e0 [|e1 es]]; [done..|].
  rewrite histogram_total. cbn [hd] in Hhead. subst e0.
  rewrite !last_cons in Hlast. by rewrite Hlast.
Qed.

(** X21. For the histogram the test makes of any data, with its 2000 edges,
    the prefix sum and every quantile lookup on it succeed. *)
Theorem catalog_quantile_lookups_succeed (diffs : list float) (q : float) :
  ∃ (cdf : list float) (v : float),
    prefix_sum (snd (histogram_step diffs bin_args)) = Ok cdf
    ∧ first_crossing (fst (histogram_step diffs bin_args)) cdf q = Ok v.
Proof. apply catalog_quantiles_never_fail. Qed.

(** ** The magnitude sanity filter *)

Lemma map_zip_fst {A B C} (f : A → C) (a : list A) (b : list B) :
  length a = length b → map f a = map (fun m => f (fst m)) (zip a b).
Proof.
  revert b. induction a as [|x a IH]; intros [|y b] Hlen; try done.
  cbn. f_equal. apply IH. by injection Hlen.
Qed.

Lemma map_zip_snd {A B C} (g : B → C) (a : list A) (b : list B) :
  length a = length b → map g b = map (fun m => g (snd m)) (zip a b).
Proof.
  revert b. induction a as [|x a IH]; intros [|y b] Hlen; try done.
  cbn. f_equal. apply IH. by injection Hlen.
Qed.

Lemma broadcast2_map_same {A B C D} (g : B → C → D) (f : A → B) (k : A → C)
    (l : list A) :
  np.broadcast2 g (map f l) (map k l) = Ok (map (fun a => g (f a) (k a)) l).
Proof.
  unfold np.broadcast2. rewrite decide_True by (by rewrite !length_map).
  by rewrite zip_with_map_same.
Qed.

Lemma compress_zip_fst {A B} (p : A * B → bool) (a : list A) (b : list B) :
  length a = length b →
  np.compress a (map p (zip a b)) = Ok (map fst (List.filter p (zip a b))).
Proof.
  intros Hlen. unfold np.compress.
  rewrite decide_True by (rewrite length_map, length_zip_with; lia).
  f_equal. revert b Hlen.
  induction a as [|x a IH]; intros [|y b] Hlen; try done.
  cbn. injection Hlen as Hlen. rewrite (IH b Hlen). by destruct (p (x, y)).
Qed.

Lemma compress_zip_snd {A B} (p : A * B → bool) (a : list A) (b : list B) :
  length a = length b →
  np.compress b (map p (zip a b)) = Ok (map snd (List.filter p (zip a b))).
Proof.
  intros Hlen. unfold np.compress.
  rewrite decide_True by (rewrite length_map, length_zip_with; lia).
  f_equal. revert b Hlen.
  induction a as [|x a IH]; intros [|y b] Hlen; try done.
  cbn. injection Hlen as Hlen. rewrite (IH b Hlen). by destruct (p (x, y)).
Qed.

Lemma count_true_map {A} (p : A → bool) (l : list A) :
  np.count_true (map p l) = length (List.filter p l).
Proof.
  unfold np.count_true. induction l as [|a l IH]; [done|].
  change (List.filter id (map p (a :: l)))
    with (if p a then p a :: List.filter id (map p l)
          else List.filter id (map p l)).
  change (List.filter p (a :: l))
    with (if p a then a :: List.filter p l else List.filter p l).
  destruct (p a); cbn [length]; by rewrite IH.
Qed.

(** X22. Without a limiting band, and for two magnitude arrays of one
    length that is not zero, [color_distribution] keeps the galaxies whose
    two magnitudes both lie strictly between 0 and 50, in their order, and
    makes the histogram of their differences band1 - band2; when it keeps
    none it logs that no object is in the magnitude range and returns
    nothing. *)
Theorem sanity_filter_keeps_sane_pairs (band1 band2 : string)
    (ba : float * float * nat) (fs : Files) (mag1 mag2 : list float) :
  limiting_band self = None →
  get_quantities galaxy_catalog band1 (window self) = Ok mag1 →
  get_quantities galaxy_catalog band2 (window self) = Ok mag2 →
  length mag1 = length mag2 →
  mag1 ≠ [] →
  color_distribution self galaxy_catalog band1 band2 ba fs
  = match List.filter sane (zip mag1 mag2) with
    | [] => Ok (write_log fs no_magnitude_msg, None)
    | kept =>
        Ok (fs, Some (histogram_step
                        (map (fun m => (fst m - snd m)%float) kept) ba))
    end.
Proof.
  intros Hlb H1 H2 Hlen Hne. unfold color_distribution.
  rewrite H1. run. rewrite H2. run.
  rewrite decide_False by (by destruct mag1).
  rewrite Hlb.
  rewrite (map_zip_fst (fun v => PrimFloat.ltb 0 v) mag1 mag2 Hlen).
  rewrite (map_zip_fst (fun v => PrimFloat.ltb v 50) mag1 mag2 Hlen).
  rewrite (map_zip_snd (fun v => PrimFloat.ltb 0 v) mag1 mag2 Hlen).
  rewrite (map_zip_snd (fun v => PrimFloat.ltb v 50) mag1 mag2 Hlen).
  rewrite broadcast2_map_same. run.
  rewrite broadcast2_map_same. run.
  rewrite broadcast2_map_same. run.
  change (fun a : float * float =>
            PrimFloat.ltb 0 (fst a) && PrimFloat.ltb (fst a) 50
            && PrimFloat.ltb 0 (snd a) && PrimFloat.ltb (snd a) 50)
    with sane.
  rewrite (compress_zip_fst sane mag1 mag2 Hlen). run.
  rewrite (compress_zip_snd sane mag1 mag2 Hlen). run.
  rewrite count_true_map.
  destruct (List.filter sane (zip mag1 mag2)) as [|m kept] eqn:Hkept.
  - by rewrite decide_True.
  - rewrite decide_False by done. by rewrite broadcast2_map_same.
Qed.

End Test_more.

(** * Properties of the set-up of the test *)

Section Init_properties.

Import ColorDistributionTest ColorDistributionInit.

Ltac run := cbn [mbind result_bind mret result_ret of_option].

Lemma check_colors_well_formed (colors : list string) :
  check_colors colors = Ok ()
  ↔ Forall (fun color => well_formed_color color = true) colors.
Proof.
  induction colors as [|color colors IH]; [by split|].
  cbn [check_colors]. rewrite Forall_cons, <- IH. unfold well_formed_color.
  destruct (decide (String.length color = 3)) as [Hl|Hl];
    destruct (decide (String.get 1 color = Some "-"%char)) as [Hd|Hd].
  - rewrite (bool_decide_eq_false_2 (String.length color ≠ 3)) by tauto.
    rewrite (bool_decide_eq_true_2 _ Hd). cbn.
    rewrite bool_decide_eq_true. tauto.
  - rewrite (bool_decide_eq_false_2 (String.length color ≠ 3)) by tauto.
    rewrite (bool_decide_eq_false_2 _ Hd). cbn.
    rewrite bool_decide_eq_true. split; [done|tauto].
  - rewrite (bool_decide_eq_true_2 _ Hl). cbn.
    rewrite bool_decide_eq_true. split; [done|tauto].
  - rewrite (bool_decide_eq_true_2 _ Hl). cbn.
    rewrite bool_decide_eq_true. split; [done|tauto].
Qed.

Lemma check_colors_raises (colors : list string) (e : exn) :
  check_colors colors = Raise e → e = ValueError.
Proof.
  induction colors as [|color colors IH]; [done|]. cbn [check_colors].
  destruct (_ || _); [by intros [= <-]|done].
Qed.

(** X23. [__init__] accepts its keyword arguments exactly when data_dir,
    data_name, colors, zlo, zhi and translate are all given and every
    colour has three characters with a dash in the middle; the test it
    makes holds the values given, and no limiting band or magnitude unless
    given. *)
Theorem init_accepts (q : bool) (kw : kwargs) :
  ((∃ t, __init__ q kw = Ok t)
   ↔ (is_Some (data_dir kw) ∧ is_Some (data_name kw)
      ∧ (∃ colors, kw_colors kw = Some colors
                   ∧ Forall (fun color => well_formed_color color = true) colors)
      ∧ is_Some (kw_zlo kw) ∧ is_Some (kw_zhi kw) ∧ is_Some (kw_translate kw)))
  ∧ ∀ t, __init__ q kw = Ok t →
      kw_colors kw = Some (colors t) ∧ data_name kw = Some (_data_name t)
      ∧ kw_zlo kw = Some (zlo t) ∧ kw_zhi kw = Some (zhi t)
      ∧ kw_translate kw = Some (translate t)
      ∧ limiting_band t = kw_limiting_band kw
      ∧ limiting_mag t = kw_limiting_mag kw
      ∧ load_validation_catalog_q t = q.
Proof.
  split; [|unfold __init__; intros t;
           destruct (data_dir kw); run; [|done];
           destruct (data_name kw); run; [|done];
           destruct (kw_colors kw) as [colors|]; run; [|done];
           destruct (check_colors colors) as [[]|]; run; [|done];
           destruct (kw_zlo kw); run; [|done];
           destruct (kw_zhi kw); run; [|done];
           destruct (kw_translate kw); run; [|done];
           by intros [= <-]].
  unfold __init__. split.
  - intros [t Ht]. revert Ht.
    destruct (data_dir kw); run; [|done].
    destruct (data_name kw); run; [|done].
    destruct (kw_colors kw) as [colors|]; run; [|done].
    destruct (check_colors colors) as [[]|] eqn:Hcheck; run; [|done].
    destruct (kw_zlo kw); run; [|done].
    destruct (kw_zhi kw); run; [|done].
    destruct (kw_translate kw); run; [|done].
    intros _. repeat split; eauto.
    exists colors. split; [done|]. by apply check_colors_well_formed.
  - intros ([? ->] & [? ->] & (colors & -> & Hwf) & [? ->] & [? ->] & [? ->]).
    run. apply check_colors_well_formed in Hwf. rewrite Hwf. run. eauto.
Qed.

(** X24. When [__init__] rejects its keyword arguments, it raises
    [KeyError] if data_dir or data_name is missing, and [ValueError]
    otherwise. *)
Theorem init_error_kinds (q : bool) (kw : kwargs) (e : exn) :
  __init__ q kw = Raise e →
  (e = KeyError ∧ (data_dir kw = None ∨ data_name kw = None))
  ∨ (e = ValueError ∧ is_Some (data_dir kw) ∧ is_Some (data_name kw)).
Proof.
  unfold __init__.
  destruct (data_dir kw); run; [|intros [= <-]; auto].
  destruct (data_name kw); run; [|intros [= <-]; auto].
  intros He. right. split; [|by eauto].
  revert He.
  destruct (kw_colors kw) as [colors|]; run; [|by intros [= <-]].
  destruct (check_colors colors) as [[]|e'] eqn:Hcheck; run;
    [|intros [= <-]; by eapply check_colors_raises].
  destruct (kw_zlo kw); run; [|by intros [= <-]].
  destruct (kw_zhi kw); run; [|by intros [= <-]].
  destruct (kw_translate kw); run; [done|by intros [= <-]].
Qed.

Lemma init_colors_well_formed (q : bool) (kw : kwargs) (t : Test) :
  __init__ q kw = Ok t →
  Forall (fun color => well_formed_color color = true) (colors t).
Proof.
  unfold __init__.
  destruct (data_dir kw); run; [|done].
  destruct (data_name kw); run; [|done].
  destruct (kw_colors kw) as [colors|]; run; [|done].
  destruct (check_colors colors) as [[]|] eqn:Hcheck; run; [|done].
  destruct (kw_zlo kw); run; [|done].
  destruct (kw_zhi kw); run; [|done].
  destruct (kw_translate kw); run; [|done].
  intros [= <-]. cbn. by apply check_colors_well_formed.
Qed.

(** X25. In a test that [__init__] has made, every colour has a band letter
    at positions 0 and 2 and is the first letter, a dash, the second
    letter: the loop of the run never fails reading them. *)
Theorem init_colors_have_two_bands (q : bool) (kw : kwargs) (t : Test)
    (color : string) :
  __init__ q kw = Ok t →
  color ∈ colors t →
  ∃ c0 c2 : string,
    char_at color 0 = Ok c0 ∧ char_at color 2 = Ok c2
    ∧ color = (c0 ++ "-" ++ c2)%string.
Proof.
  intros Hinit Hin.
  assert (Hwf : well_formed_color color = true).
  { pose proof (init_colors_well_formed q kw t Hinit) as Hall.
    by apply (proj1 (Forall_forall _ _) Hall). }
  apply bool_decide_eq_true_1 in Hwf as [Hlen Hdash].
  destruct color as [|a [|b [|c [|d rest]]]]; try discriminate Hlen.
  injection Hdash as ->.
  by exists (String a EmptyString), (String c EmptyString).
Qed.

End Init_properties.

(** * Closed instances of the properties above *)

Section More_instances.

Import ColorDistributionTest ColorDistributionMore ColorDistributionInit.

Lemma stored_property_is_the_column_witness :
  MB2GalaxyCatalog._get_stored_property
    (MB2GalaxyCatalog.load MB2GalaxyCatalog.init MB2GalaxyCatalog.sample_table)
    "velocityX" {[ "zhi" := 1.0%float ]}
  = Ok (map MB2GalaxyCatalog.velocityX
          (List.filter (MB2GalaxyCatalog.passes {[ "zhi" := 1.0%float ]})
             MB2GalaxyCatalog.sample_table)).
Proof.
  apply (stored_property_is_the_column MB2GalaxyCatalog.sample_table "velocityX").
  vm_compute. reflexivity.
Defined.

Lemma stored_property_of_unknown_column_witness :
  MB2GalaxyCatalog._get_stored_property
    (MB2GalaxyCatalog.load MB2GalaxyCatalog.init MB2GalaxyCatalog.sample_table)
    "positionX" ∅
  = Raise KeyError.
Proof.
  apply (stored_property_of_unknown_column MB2GalaxyCatalog.sample_table).
  vm_compute. reflexivity.
Defined.

Lemma derived_property_of_unknown_name_witness :
  MB2GalaxyCatalog._get_derived_property (fun _ zr => zr)
    (MB2GalaxyCatalog.load MB2GalaxyCatalog.init MB2GalaxyCatalog.sample_table)
    "redshift" ∅
  = Raise KeyError.
Proof.
  apply (derived_property_of_unknown_name (fun _ zr => zr)
           MB2GalaxyCatalog.sample_table).
  vm_compute. reflexivity.
Defined.

Lemma quantities_have_equal_lengths_witness :
  ∃ a1 a2 : list float,
    MB2GalaxyCatalog.get_quantities (fun _ zr => zr)
      (MB2GalaxyCatalog.load MB2GalaxyCatalog.init MB2GalaxyCatalog.sample_table)
      "mass" {[ "zlo" := 0.5%float ]} = Ok a1
    ∧ MB2GalaxyCatalog.get_quantities (fun _ zr => zr)
        (MB2GalaxyCatalog.load MB2GalaxyCatalog.init MB2GalaxyCatalog.sample_table)
        "SDSS_g:observed:" {[ "zlo" := 0.5%float ]} = Ok a2
    ∧ length a1 = length a2.
Proof.
  apply (quantities_have_equal_lengths (fun _ zr => zr)
           MB2GalaxyCatalog.sample_table "mass" "SDSS_g:observed:").
  - apply elem_of_dom. exists MB2GalaxyCatalog.get_derived.
    vm_compute. reflexivity.
  - apply elem_of_dom. exists MB2GalaxyCatalog.get_derived.
    vm_compute. reflexivity.
Defined.

Lemma filters_only_remove_rows_witness :
  ∃ filtered every : list float,
    MB2GalaxyCatalog._get_stored_property
      (MB2GalaxyCatalog.load MB2GalaxyCatalog.init MB2GalaxyCatalog.sample_table)
      "redshift" {[ "zlo" := 0.5%float; "zhi" := 1.0%float ]} = Ok filtered
    ∧ MB2GalaxyCatalog._get_stored_property
        (MB2GalaxyCatalog.load MB2GalaxyCatalog.init MB2GalaxyCatalog.sample_table)
        "redshift" ∅ = Ok every
    ∧ sublist filtered every.
Proof.
  apply (filters_only_remove_rows MB2GalaxyCatalog.sample_table "redshift"
           MB2GalaxyCatalog.redshift).
  vm_compute. reflexivity.
Defined.

Lemma nan_redshift_is_filtered_out_witness :
  ∃ mask,
    MB2GalaxyCatalog._construct_mask
      (MB2GalaxyCatalog.load MB2GalaxyCatalog.init MB2Load.nan_table)
      {[ "zlo" := 0.5%float ]} = Ok mask
    ∧ mask !! 1 = Some false.
Proof.
  apply (nan_redshift_is_filtered_out MB2Load.nan_table {[ "zlo" := 0.5%float ]}
           1 (MB2GalaxyCatalog.sample_row nan 2.0 (-19.0) (-19.5))).
  - reflexivity.
  - reflexivity.
  - left. exists 0.5%float. vm_compute. reflexivity.
Defined.

Example nan_redshift_passes_without_bounds :
  MB2GalaxyCatalog._construct_mask
    (MB2GalaxyCatalog.load MB2GalaxyCatalog.init MB2Load.nan_table) ∅
  = Ok [true; true].
Proof. vm_compute. reflexivity. Qed.

Lemma window_bounds_are_excluded_witness :
  ∃ mask,
    MB2GalaxyCatalog._construct_mask
      (MB2GalaxyCatalog.load MB2GalaxyCatalog.init MB2GalaxyCatalog.sample_table)
      {[ "zlo" := 0.7%float ]} = Ok mask
    ∧ mask !! 0 = Some false.
Proof.
  apply (window_bounds_are_excluded MB2GalaxyCatalog.sample_table
           {[ "zlo" := 0.7%float ]} 0
           (MB2GalaxyCatalog.sample_row 0.7 1.0 (-20.0) (-20.5))).
  - reflexivity.
  - left. vm_compute. reflexivity.
Defined.

Lemma run_files_are_append_only_witness :
  ∃ (lines : list summary_line) (msgs : list string),
    summary_txt sample_skipped_dir
    = summary_txt empty_dir ++ Window 0.5 1.0 :: lines
    ∧ log_txt sample_skipped_dir = log_txt empty_dir ++ msgs.
Proof.
  apply (run_files_are_append_only sample_ext (sample_test ["r-i"; "g-r"])
           (sample_reader [] [] []) empty_dir sample_skipped_dir
           {| status := "SKIPPED"; summary := "" |}).
  vm_compute. reflexivity.
Defined.

Lemma passed_run_saves_everything_witness :
  plots_saved sample_passed_dir = true
  ∧ ∃ cq vq : list (list float),
      catalog_quantiles_txt sample_passed_dir = Some cq
      ∧ validation_quantiles_txt sample_passed_dir = Some vq
      ∧ length cq = length (colors (sample_test ["g-r"]))
      ∧ length vq = length (colors (sample_test ["g-r"]))
      ∧ Forall five cq ∧ Forall five vq.
Proof.
  apply (passed_run_saves_everything sample_ext (sample_test ["g-r"])
           (sample_reader [22.0]%float [21.5]%float []) empty_dir
           sample_passed_dir {| status := "PASSED"; summary := "" |}).
  - vm_compute. reflexivity.
  - reflexivity.
Defined.

Lemma turn_writes_only_its_row_witness :
  catalog_quantiles
    (log_warning (initial_state (sample_test ["g-z"; "g-r"]) empty_dir)
       (missing_band_msg "g" "z_band")) !! 1
  = catalog_quantiles (initial_state (sample_test ["g-z"; "g-r"]) empty_dir) !! 1
  ∧ validation_quantiles
      (log_warning (initial_state (sample_test ["g-z"; "g-r"]) empty_dir)
         (missing_band_msg "g" "z_band")) !! 1
    = validation_quantiles
        (initial_state (sample_test ["g-z"; "g-r"]) empty_dir) !! 1.
Proof.
  apply (turn_writes_only_its_row sample_ext (sample_test ["g-z"; "g-r"])
           (sample_reader [22.0]%float [21.5]%float []) 0 1).
  - vm_compute. reflexivity.
  - lia.
Defined.

Example later_turn_keeps_the_first_row :
  match process_color sample_ext (sample_test ["g-r"; "g-r"])
          (sample_reader [22.0]%float [21.5]%float []) 1
          (initial_state (sample_test ["g-r"; "g-r"]) empty_dir) with
  | Ok (Next s') =>
      catalog_quantiles s' !! 0 = Some (replicate 5 0%float)
      ∧ catalog_quantiles s' !! 1 = Some (replicate 5 0.49949974987493739%float)
  | _ => False
  end.
Proof. vm_compute. done. Qed.

Lemma run_never_returns_failed_witness :
  status {| status := "SKIPPED"; summary := "" |} ≠ "FAILED"
  ∧ (status {| status := "SKIPPED"; summary := "" |} = "PASSED"
     ∨ status {| status := "SKIPPED"; summary := "" |} = "SKIPPED").
Proof.
  apply (run_never_returns_failed sample_ext (sample_test ["r-i"; "g-r"])
           (sample_reader [] [] []) empty_dir sample_skipped_dir).
  vm_compute. reflexivity.
Defined.

Lemma unknown_data_name_is_NameError_witness :
  run_validation_test sample_ext sample_test_other
    (sample_reader [22.0]%float [21.5]%float []) empty_dir
  = Raise NameError.
Proof.
  apply (unknown_data_name_is_NameError sample_ext sample_test_other
           (sample_reader [22.0]%float [21.5]%float []) empty_dir
           "g-r" [] "g" "r" "g" "r");
    first [discriminate | reflexivity | (vm_compute; reflexivity)].
Defined.

Lemma missing_translation_is_KeyError_witness :
  run_validation_test sample_ext (sample_test ["g-Y"; "g-r"])
    (sample_reader [22.0]%float [21.5]%float []) empty_dir
  = Raise KeyError.
Proof.
  apply (missing_translation_is_KeyError sample_ext (sample_test ["g-Y"; "g-r"])
           (sample_reader [22.0]%float [21.5]%float []) empty_dir
           "g-Y" ["g-r"] "g" "Y").
  - reflexivity.
  - reflexivity.
  - reflexivity.
  - right. vm_compute. reflexivity.
Defined.

Lemma empty_reference_is_IndexError_witness :
  process_color empty_reference_ext (sample_test ["g-z"])
    (sample_reader [22.0]%float [21.5]%float []) 0
    (initial_state (sample_test ["g-z"]) empty_dir)
  = Raise IndexError.
Proof.
  apply (empty_reference_is_IndexError empty_reference_ext (sample_test ["g-z"])
           (sample_reader [22.0]%float [21.5]%float []) 0
           (initial_state (sample_test ["g-z"]) empty_dir)
           "g-z" "g" "z" "g" "z_band" []);
    first [reflexivity | (vm_compute; reflexivity)].
Defined.

Lemma first_crossing_is_the_first_witness :
  first_crossing [0.5; 1.5; 2.5]%float [0.25; 0.75; 1.0]%float 0.5%float
  = np.getitem [0.5; 1.5; 2.5]%float 1.
Proof.
  apply (first_crossing_is_the_first [0.5; 1.5; 2.5]%float
           [0.25; 0.75; 1.0]%float 0.5%float 1).
  - exists 0.75%float. split; reflexivity.
  - intros j c Hj. destruct j as [|j]; [|lia]. intros [= <-]. reflexivity.
Defined.

Lemma sanity_filter_keeps_sane_pairs_witness :
  color_distribution (sample_test ["g-r"])
    (sample_reader [22.0; 60.0]%float [21.5; 21.0]%float []) "g" "r"
    bin_args empty_dir
  = match List.filter sane (zip [22.0; 60.0]%float [21.5; 21.0]%float) with
    | [] => Ok (write_log empty_dir no_magnitude_msg, None)
    | kept =>
        Ok (empty_dir,
            Some (histogram_step (map (fun m => (fst m - snd m)%float) kept)
                    bin_args))
    end.
Proof.
  apply (sanity_filter_keeps_sane_pairs (sample_test ["g-r"])
           (sample_reader [22.0; 60.0]%float [21.5; 21.0]%float []) "g" "r"
           bin_args empty_dir [22.0; 60.0]%float [21.5; 21.0]%float);
    first [discriminate | reflexivity].
Defined.

Example sanity_filter_on_two_galaxies :
  List.filter sane (zip [22.0; 60.0]%float [21.5; 21.0]%float)
  = [(22.0, 21.5)]%float.
Proof. vm_compute. reflexivity. Qed.

Lemma init_error_kinds_witness :
  (KeyError = KeyError
   ∧ (data_dir sample_kwargs_no_dir = None
      ∨ data_name sample_kwargs_no_dir = None))
  ∨ (KeyError = ValueError
     ∧ is_Some (data_dir sample_kwargs_no_dir)
     ∧ is_Some (data_name sample_kwargs_no_dir)).
Proof.
  apply (init_error_kinds true sample_kwargs_no_dir KeyError). reflexivity.
Defined.

Lemma init_colors_have_two_bands_witness :
  ∃ c0 c2 : string,
    char_at "u-g" 0 = Ok c0 ∧ char_at "u-g" 2 = Ok c2
    ∧ "u-g" = (c0 ++ "-" ++ c2)%string.
Proof.
  apply (init_colors_have_two_bands true sample_kwargs sample_init_test "u-g").
  - vm_compute. reflexivity.
  - apply (bool_decide_unpack _). vm_compute. reflexivity.
Defined.

Example init_on_sample_kwargs :
  __init__ true sample_kwargs = Ok sample_init_test
  ∧ __init__ true sample_kwargs_no_dir = Raise KeyError.
Proof. vm_compute. done. Qed.

End More_instances.
